(** * URL feature extraction of the phishing-detector page (app.py)

    A shallow embedding of [extract_features] and of the button handler of
    app.py, together with the parts of CPython's standard library the
    function runs through: [str] methods, the two regular expressions of
    the source, [urllib.parse.urlparse] (with its [functools.lru_cache])
    and [ipaddress.ip_address] (CPython 3.11 with the bracketed-host
    checks of its urllib security releases), Python's insertion-ordered
    [dict] and the one-row [pandas.DataFrame] built from it.

    A Python [str] is a sequence of Unicode code points, modelled as
    [list N].  The two Unicode tables the code consults outside ASCII
    (general category Nd for the regex escape \d, and NFKC normalisation
    in [_checknetloc]) are not part of the repository: they are the
    fields of the class [UnicodeData], and every statement holds for
    every such table. *)

From Stdlib Require Import List NArith ZArith Bool Ascii String Lia.
Import ListNotations.

(** ** Python strings *)

Module Py.

Definition str := list N.

Definition ord (a : ascii) : N := N_of_ascii a.

(** A Python string literal of the source (ASCII text). *)
Definition lit (s : string) : str := map ord (list_ascii_of_string s).

Definition len {A} (s : list A) : Z := Z.of_nat (List.length s).

Definition str_eqb (s t : str) : bool :=
  if list_eq_dec N.eq_dec s t then true else false.

(** [c in s] for a one-character [c]. *)
Definition contains (c : N) (s : str) : bool := existsb (N.eqb c) s.

(** [s.count(c)] for a one-character [c]. *)
Definition count (c : N) (s : str) : Z := len (filter (N.eqb c) s).

Fixpoint index_of (c : N) (s : str) : option nat :=
  match s with
  | [] => None
  | x :: s' => if N.eqb x c then Some O else option_map S (index_of c s')
  end.

(** [s[i:]], [s[:i]] and [s[i:j]]; the indices the code passes are never
    negative. *)
Definition slice_from (i : Z) (s : str) : str := skipn (Z.to_nat i) s.
Definition slice_to (i : Z) (s : str) : str := firstn (Z.to_nat i) s.
Definition slice (i j : Z) (s : str) : str := slice_from i (slice_to j s).

(** [s.find(c, start)]: the lowest index at or after [start], or -1. *)
Definition find (c : N) (start : Z) (s : str) : Z :=
  match index_of c (slice_from start s) with
  | Some i => (start + Z.of_nat i)%Z
  | None => (-1)%Z
  end.

(** [s.rfind(c)]: the highest index, or -1. *)
Definition rfind (c : N) (s : str) : Z :=
  match index_of c (rev s) with
  | Some i => (len s - 1 - Z.of_nat i)%Z
  | None => (-1)%Z
  end.

(** [s.lstrip(chars)], [s.rstrip(chars)], [s.strip(chars)]. *)
Fixpoint lstrip (chars : str) (s : str) : str :=
  match s with
  | [] => []
  | c :: s' => if contains c chars then lstrip chars s' else s
  end.
Definition rstrip (chars : str) (s : str) : str := rev (lstrip chars (rev s)).
Definition strip (chars : str) (s : str) : str := rstrip chars (lstrip chars s).

(** [s.replace(c, "")] for a one-character [c]. *)
Definition remove (c : N) (s : str) : str := filter (fun x => negb (N.eqb x c)) s.

Definition isascii (c : N) : bool := (c <? 128)%N.
Definition is_upper (c : N) : bool := (65 <=? c)%N && (c <=? 90)%N.
Definition is_lower (c : N) : bool := (97 <=? c)%N && (c <=? 122)%N.
Definition is_ascii_digit (c : N) : bool := (48 <=? c)%N && (c <=? 57)%N.

(** [c.isascii() and c.isalpha()]. *)
Definition isascii_alpha (c : N) : bool := is_upper c || is_lower c.

(** [s.lower()], on the ASCII letters; the code lowers only a prefix made
    of [scheme_chars]. *)
Definition lower (s : str) : str :=
  map (fun c => if is_upper c then (c + 32)%N else c) s.

(** [s.split(sep)] for a one-character [sep]: never the empty list. *)
Fixpoint split (sep : N) (s : str) : list str :=
  match s with
  | [] => [[]]
  | c :: s' =>
      if N.eqb c sep then [] :: split sep s'
      else match split sep s' with
           | p :: ps => (c :: p) :: ps
           | [] => [[c]]
           end
  end.

(** [s.partition(sep)]: text before the first [sep], whether it was found,
    text after it. *)
Fixpoint partition (sep : N) (s : str) : str * bool * str :=
  match s with
  | [] => ([], false, [])
  | c :: s' =>
      if N.eqb c sep then ([], true, s')
      else let '(a, found, b) := partition sep s' in (c :: a, found, b)
  end.

(** [s.rpartition(sep)]: split at the last [sep]; when there is none the
    whole text is the last component. *)
Definition rpartition (sep : N) (s : str) : str * bool * str :=
  let '(b, found, a) := partition sep (rev s) in
  if found then (rev a, true, rev b) else ([], false, s).

Definition startswith (c : N) (s : str) : bool :=
  match s with
  | x :: _ => N.eqb x c
  | [] => false
  end.

Definition endswith (c : N) (s : str) : bool := startswith c (rev s).

(** [l[0]] and [l[-1]] of a list of strings known to be non-empty. *)
Definition first (l : list str) : str := hd [] l.
Definition last (l : list str) : str := List.last l [].

End Py.

Import Py.

(** The Unicode character database, consulted only outside ASCII. *)
Class UnicodeData := {
  (** general category Nd (decimal digit) *)
  category_Nd : N -> bool;
  (** [unicodedata.normalize('NFKC', s)] *)
  normalize_NFKC : str -> str
}.

(** ** The regular expressions of the source *)

Module Re.

(** A member of a character set [[...]]. *)
Inductive item :=
| Single (c : N)
| Range (lo hi : N).

(** One-character atoms. *)
Inductive atom :=
| Lit (c : N)               (* an ordinary or escaped character *)
| Class (cs : list item)    (* [...] *)
| Esc_d                     (* \d *)
| Dot.                      (* . (every character but a newline) *)

Inductive node :=
| Bos                                       (* ^ and \A *)
| Eol                                       (* $ *)
| Eos                                       (* \Z *)
| Rep (a : atom) (lo : nat) (hi : option nat). (* a{lo,hi}; a+ is a{1,} *)

Definition one (a : atom) : node := Rep a 1 (Some 1).

Definition item_matches (it : item) (c : N) : bool :=
  match it with
  | Single x => N.eqb c x
  | Range lo hi => (lo <=? c)%N && (c <=? hi)%N
  end.

Definition class_matches (cs : list item) (c : N) : bool :=
  existsb (fun it => item_matches it c) cs.

(** \d on a [str] pattern: the ASCII digits, and outside ASCII the
    characters of category Nd. *)
Definition is_decimal `{UnicodeData} (c : N) : bool :=
  if isascii c then is_ascii_digit c else category_Nd c.

Definition atom_matches `{UnicodeData} (a : atom) (c : N) : bool :=
  match a with
  | Lit x => N.eqb c x
  | Class cs => class_matches cs c
  | Esc_d => is_decimal c
  | Dot => negb (N.eqb c 10)
  end.

(** The text between [[] and []] of a set without escapes, read the way
    the [re] compiler reads it: a character followed by [-] and another
    character is the range between the two; a [-] right before the closing
    bracket is a plain character.  [None] is [re.error] (bad range). *)
Fixpoint parse_class (body : str) : option (list item) :=
  match body with
  | [] => Some []
  | this :: rest =>
      match rest with
      | dash :: after =>
          if N.eqb dash 45 then
            match after with
            | [] => Some [Single this; Single 45]
            | that :: rest' =>
                if (that <? this)%N then None
                else option_map (cons (Range this that)) (parse_class rest')
            end
          else option_map (cons (Single this)) (parse_class rest)
      | [] => Some [Single this]
      end
  end.

(** Greedy bounded repetition with backtracking; [k] is the rest of the
    pattern, [pos] the number of characters consumed so far. *)
Fixpoint rep (am : N -> bool) (k : nat -> str -> bool)
    (lo hi : nat) (pos : nat) (s : str) : bool :=
  match hi with
  | O => Nat.eqb lo 0 && k pos s
  | S hi' =>
      match s with
      | c :: s' =>
          (am c && rep am k (pred lo) hi' (S pos) s')
          || (Nat.eqb lo 0 && k pos s)
      | [] => Nat.eqb lo 0 && k pos s
      end
  end.

(** Does the pattern match at [pos], the rest of the subject being [s]?
    [$] holds at the end of the string and just before a newline that
    ends it. *)
Fixpoint run `{UnicodeData} (p : list node) (pos : nat) (s : str) : bool :=
  match p with
  | [] => true
  | Bos :: p' => Nat.eqb pos 0 && run p' pos s
  | Eol :: p' =>
      match s with
      | [] => run p' pos s
      | [c] => N.eqb c 10 && run p' pos s
      | _ => false
      end
  | Eos :: p' =>
      match s with
      | [] => run p' pos s
      | _ => false
      end
  | Rep a lo hi :: p' =>
      rep (atom_matches a) (run p') lo
        (match hi with Some h => h | None => List.length s end) pos s
  end.

(** [re.match(p, s)] is not [None]. *)
Definition re_match `{UnicodeData} (p : list node) (s : str) : bool := run p 0 s.

(** [re.findall] of a pattern that is a single one-character atom: the
    matching characters, left to right. *)
Definition findall `{UnicodeData} (a : atom) (s : str) : list str :=
  map (fun c => [c]) (filter (atom_matches a) s).

End Re.

(** ** Exceptions *)

(** The exceptions that can reach the button handler.  A message keeps the
    fixed text of the [raise]; interpolated values are left out. *)
Inductive exn :=
| ValueError (msg : string)
| TypeError (msg : string)
| IndexError (msg : string)
| OtherError (msg : string).

Inductive result (A : Type) :=
| Ok (a : A)
| Raise (e : exn).
Arguments Ok {A} a.
Arguments Raise {A} e.

Definition bind {A B} (r : result A) (k : A -> result B) : result B :=
  match r with
  | Ok a => k a
  | Raise e => Raise e
  end.

Notation "x <- r ;; k" := (bind r (fun x => k))
  (at level 61, r at next level, right associativity).
Notation "r ;;; k" := (bind r (fun _ => k))
  (at level 61, right associativity).

(** ** ipaddress.ip_address on a string *)

Module Ipaddress.

(** [int(s, 10)] and [int(s, 16)] on digits already checked. *)
Definition int10 (s : str) : N :=
  fold_left (fun acc c => (acc * 10 + (c - 48))%N) s 0%N.

Definition is_hex_digit (c : N) : bool :=
  is_ascii_digit c
  || ((65 <=? c)%N && (c <=? 70)%N)
  || ((97 <=? c)%N && (c <=? 102)%N).

Definition hex_value (c : N) : N :=
  if is_ascii_digit c then (c - 48)%N
  else if (97 <=? c)%N then (c - 87)%N
  else (c - 55)%N.

Definition int16 (s : str) : N :=
  fold_left (fun acc c => (acc * 16 + hex_value c)%N) s 0%N.

Definition hex_digit (d : N) : N :=
  if (d <? 10)%N then (48 + d)%N else (87 + d)%N.

(** ['%x' % n] for [n] below 65536. *)
Definition hex16 (n : N) : str :=
  let ds := [ (n / 4096) mod 16; (n / 256) mod 16; (n / 16) mod 16 ]%N in
  map hex_digit (lstrip [0%N] ds ++ [n mod 16]%N).

(** [_BaseV4._parse_octet]; [None] is the [ValueError]. *)
Definition _parse_octet (octet_str : str) : option N :=
  match octet_str with
  | [] => None
  | c0 :: _ =>
      if negb (forallb (fun c => isascii c && is_ascii_digit c) octet_str)
      then None
      else if (3 <? len octet_str)%Z then None
      else if negb (str_eqb octet_str (lit "0")) && N.eqb c0 48 then None
      else
        let octet_int := int10 octet_str in
        if (255 <? octet_int)%N then None else Some octet_int
  end.

Fixpoint parse_all (f : str -> option N) (l : list str) : option (list N) :=
  match l with
  | [] => Some []
  | x :: l' =>
      match f x with
      | None => None
      | Some v => option_map (cons v) (parse_all f l')
      end
  end.

(** [int.from_bytes(octets, 'big')]. *)
Definition from_bytes_big (bs : list N) : N :=
  fold_left (fun acc b => N.lor (N.shiftl acc 8) b) bs 0%N.

(** [_BaseV4._ip_int_from_string]; [None] is [AddressValueError]. *)
Definition v4_ip_int_from_string (ip_str : str) : option N :=
  match ip_str with
  | [] => None
  | _ =>
      let octets := split 46 ip_str in
      if negb (Nat.eqb (List.length octets) 4) then None
      else option_map from_bytes_big (parse_all _parse_octet octets)
  end.

(** [IPv4Address(address)] for a string. *)
Definition IPv4Address (address : str) : option N :=
  if contains 47 address then None else v4_ip_int_from_string address.

(** [_BaseV6._parse_hextet]: hexadecimal digits only, at most four, and
    [int('', 16)] raises on the empty string. *)
Definition _parse_hextet (hextet_str : str) : option N :=
  if negb (forallb is_hex_digit hextet_str) then None
  else if (4 <? len hextet_str)%Z then None
  else match hextet_str with
       | [] => None
       | _ => Some (int16 hextet_str)
       end.

Definition _HEXTET_COUNT : Z := 8.

(** The loop that looks for an empty part strictly between the two ends:
    [None] when a second one is met, else the index found, if any. *)
Definition find_skip_index (parts : list str) : option (option nat) :=
  fold_left
    (fun st i =>
       match st with
       | None => None
       | Some skip_index =>
           match nth i parts [] with
           | [] => match skip_index with
                   | Some _ => None
                   | None => Some (Some i)
                   end
           | _ => Some skip_index
           end
       end)
    (seq 1 (List.length parts - 2)) (Some None).

(** The two loops that fold the hextets into the 128-bit integer. *)
Definition fold_hextets (parts : list str) (parts_hi parts_lo parts_skipped : Z)
  : option N :=
  match parse_all _parse_hextet (firstn (Z.to_nat parts_hi) parts) with
  | None => None
  | Some hi =>
      let ip_int := fold_left (fun acc h => N.lor (N.shiftl acc 16) h) hi 0%N in
      let ip_int := N.shiftl ip_int (Z.to_N (16 * parts_skipped)) in
      match parse_all _parse_hextet
              (skipn (List.length parts - Z.to_nat parts_lo) parts) with
      | None => None
      | Some lo =>
          Some (fold_left (fun acc h => N.lor (N.shiftl acc 16) h) lo ip_int)
      end
  end.

(** [_BaseV6._ip_int_from_string]; [None] is [AddressValueError]. *)
Definition v6_ip_int_from_string (ip_str : str) : option N :=
  match ip_str with
  | [] => None
  | _ =>
  let parts := split 58 ip_str in
  if (List.length parts <? 3)%nat then None else
  (* an IPv4-style suffix becomes two hextets *)
  let parts' :=
    if contains 46 (last parts) then
      match IPv4Address (last parts) with
      | None => None
      | Some ipv4_int =>
          Some (removelast parts
                ++ [hex16 (N.land (N.shiftr ipv4_int 16) 65535);
                    hex16 (N.land ipv4_int 65535)])
      end
    else Some parts in
  match parts' with
  | None => None
  | Some parts =>
  if (Z.to_nat (_HEXTET_COUNT + 1) <? List.length parts)%nat then None else
  match find_skip_index parts with
  | None => None
  | Some (Some skip_index) =>
      let parts_hi := Z.of_nat skip_index in
      let parts_lo := (len parts - Z.of_nat skip_index - 1)%Z in
      let hi_step :=
        match first parts with
        | [] => let parts_hi := (parts_hi - 1)%Z in
                if negb (parts_hi =? 0)%Z then None else Some parts_hi
        | _ => Some parts_hi
        end in
      let lo_step :=
        match last parts with
        | [] => let parts_lo := (parts_lo - 1)%Z in
                if negb (parts_lo =? 0)%Z then None else Some parts_lo
        | _ => Some parts_lo
        end in
      match hi_step, lo_step with
      | Some parts_hi, Some parts_lo =>
          let parts_skipped := (_HEXTET_COUNT - (parts_hi + parts_lo))%Z in
          if (parts_skipped <? 1)%Z then None
          else fold_hextets parts parts_hi parts_lo parts_skipped
      | _, _ => None
      end
  | Some None =>
      if negb (len parts =? _HEXTET_COUNT)%Z then None
      else match first parts, last parts with
           | [], _ => None
           | _, [] => None
           | _, _ => fold_hextets parts (len parts) 0 0
           end
  end
  end
  end.

(** [_BaseV6._split_scope_id]: the address before an optional [%scope];
    [None] is [AddressValueError]. *)
Definition _split_scope_id (ip_str : str) : option str :=
  let '(addr, sep, scope_id) := partition 37 ip_str in
  if negb sep then Some addr
  else match scope_id with
       | [] => None
       | _ => if contains 37 scope_id then None else Some addr
       end.

(** [IPv6Address(address)] for a string. *)
Definition IPv6Address (address : str) : option N :=
  if contains 47 address then None
  else match _split_scope_id address with
       | None => None
       | Some addr_str => v6_ip_int_from_string addr_str
       end.

Inductive ip :=
| V4 (ip_int : N)
| V6 (ip_int : N).

(** [ip_address(address)]: IPv4 is tried first. *)
Definition ip_address (address : str) : result ip :=
  match IPv4Address address with
  | Some n => Ok (V4 n)
  | None =>
      match IPv6Address address with
      | Some n => Ok (V6 n)
      | None => Raise (ValueError "does not appear to be an IPv4 or IPv6 address")
      end
  end.

End Ipaddress.

(** ** urllib.parse *)

Module UrlParse.

(** [SplitResult] / [ParseResult]: the named tuple [urlparse] returns
    ([params] stays empty in a [urlsplit] result). *)
Record ParseResult := {
  scheme : str;
  netloc : str;
  path : str;
  params : str;
  query : str;
  fragment : str
}.

Definition uses_params : list str :=
  map lit [""; "ftp"; "hdl"; "prospero"; "http"; "imap";
           "https"; "shttp"; "rtsp"; "rtspu"; "sip"; "sips";
           "mms"; "sftp"; "tel"]%string.

Definition scheme_chars : str :=
  lit "abcdefghijklmnopqrstuvwxyzABCDEFGHIJKLMNOPQRSTUVWXYZ0123456789+-.".

(** The code points 0 to 32. *)
Definition _WHATWG_C0_CONTROL_OR_SPACE : str := map N.of_nat (seq 0 33).

(** Tab, carriage return, newline. *)
Definition _UNSAFE_URL_BYTES_TO_REMOVE : str := [9; 13; 10]%N.

Definition _splitparams (url : str) : str * str :=
  if contains 47 url then
    let i := find 59 (rfind 47 url) url in
    if (i <? 0)%Z then (url, [])
    else (slice_to i url, slice_from (i + 1) url)
  else
    let i := find 59 0 url in
    (slice_to i url, slice_from (i + 1) url).

Definition _splitnetloc (url : str) (start : Z) : str * str :=
  let delim :=
    fold_left
      (fun delim c =>
         let wdelim := find c start url in
         if (0 <=? wdelim)%Z then Z.min delim wdelim else delim)
      (lit "/?#") (len url) in
  (slice start delim url, slice_from delim url).

(** The delimiters [_checknetloc] looks for after normalisation. *)
Definition netloc_delims : str := lit "/?#@:".

Definition _checknetloc `{UnicodeData} (netloc : str) : result unit :=
  match netloc with
  | [] => Ok tt
  | _ =>
      if forallb isascii netloc then Ok tt
      else
        let n := remove 64 netloc in
        let n := remove 58 n in
        let n := remove 35 n in
        let n := remove 63 n in
        let netloc2 := normalize_NFKC n in
        if str_eqb n netloc2 then Ok tt
        else if existsb (fun c => contains c netloc2) netloc_delims
        then Raise (ValueError "netloc contains invalid characters under NFKC normalization")
        else Ok tt
  end.

(** The pattern [\Av[a-fA-F0-9]+\..+\Z] of an IPvFuture literal. *)
Definition ipvfuture_pattern : list Re.node :=
  [ Re.Bos; Re.one (Re.Lit 118);
    Re.Rep (Re.Class [Re.Range 97 102; Re.Range 65 70; Re.Range 48 57]) 1 None;
    Re.one (Re.Lit 46); Re.Rep Re.Dot 1 None; Re.Eos ]%N.

Definition _check_bracketed_host `{UnicodeData} (hostname : str) : result unit :=
  if startswith 118 hostname then
    if negb (Re.re_match ipvfuture_pattern hostname)
    then Raise (ValueError "IPvFuture address is invalid")
    else Ok tt
  else
    ip <- Ipaddress.ip_address hostname ;;
    match ip with
    | Ipaddress.V4 _ => Raise (ValueError "An IPv4 address cannot be in brackets")
    | Ipaddress.V6 _ => Ok tt
    end.

Definition _check_bracketed_netloc `{UnicodeData} (netloc : str) : result unit :=
  let '(_, _, hostname_and_port) := rpartition 64 netloc in
  let '(before_bracket, have_open_br, bracketed) := partition 91 hostname_and_port in
  if have_open_br then
    match before_bracket with
    | _ :: _ => Raise (ValueError "Invalid IPv6 URL")
    | [] =>
        let '(hostname, _, port) := partition 93 bracketed in
        match port with
        | _ :: _ =>
            if negb (startswith 58 port) then Raise (ValueError "Invalid IPv6 URL")
            else _check_bracketed_host hostname
        | [] => _check_bracketed_host hostname
        end
    end
  else
    let '(hostname, _, port) := partition 58 hostname_and_port in
    _check_bracketed_host hostname.

(** The body of [urlsplit] (the function under the cache decorator). *)
Definition urlsplit `{UnicodeData} (url : str) (scheme : str) (allow_fragments : bool)
  : result ParseResult :=
  let url := lstrip _WHATWG_C0_CONTROL_OR_SPACE url in
  let scheme := strip _WHATWG_C0_CONTROL_OR_SPACE scheme in
  let url := fold_left (fun u b => remove b u) _UNSAFE_URL_BYTES_TO_REMOVE url in
  let scheme := fold_left (fun u b => remove b u) _UNSAFE_URL_BYTES_TO_REMOVE scheme in
  let i := find 58 0 url in
  let '(scheme, url) :=
    if (0 <? i)%Z && isascii_alpha (hd 0%N url) then
      if forallb (fun c => contains c scheme_chars) (slice_to i url)
      then (lower (slice_to i url), slice_from (i + 1) url)
      else (scheme, url)
    else (scheme, url) in
  r <- (if str_eqb (slice_to 2 url) (lit "//") then
          let '(netloc, url) := _splitnetloc url 2 in
          if (contains 91 netloc && negb (contains 93 netloc))
             || (contains 93 netloc && negb (contains 91 netloc))
          then Raise (ValueError "Invalid IPv6 URL")
          else
            (if contains 91 netloc && contains 93 netloc
             then _check_bracketed_netloc netloc else Ok tt) ;;;
            Ok (netloc, url)
        else Ok ([], url)) ;;
  let '(netloc, url) := r in
  let '(url, fragment) :=
    if allow_fragments && contains 35 url
    then let '(a, _, b) := partition 35 url in (a, b)
    else (url, []) in
  let '(url, query) :=
    if contains 63 url
    then let '(a, _, b) := partition 63 url in (a, b)
    else (url, []) in
  _checknetloc netloc ;;;
  Ok {| scheme := scheme; netloc := netloc; path := url; params := [];
        query := query; fragment := fragment |}.

(** [urlparse(url)] through the undecorated [urlsplit]. *)
Definition urlparse_of (splitresult : ParseResult) : ParseResult :=
  let url := path splitresult in
  let '(url, params) :=
    if existsb (str_eqb (scheme splitresult)) uses_params && contains 59 url
    then _splitparams url
    else (url, []) in
  {| scheme := scheme splitresult; netloc := netloc splitresult; path := url;
     params := params; query := query splitresult;
     fragment := fragment splitresult |}.

Definition urlparse `{UnicodeData} (url : str) : result ParseResult :=
  splitresult <- urlsplit url [] true ;;
  Ok (urlparse_of splitresult).

End UrlParse.

(** ** Python dict and the pandas frame built from it *)

(** A [dict] with string keys keeps its keys in insertion order. *)
Definition dict := list (string * Z).

(** [d[k] = v]: an existing key keeps its place, a new one goes last. *)
Fixpoint dict_set (d : dict) (k : string) (v : Z) : dict :=
  match d with
  | [] => [(k, v)]
  | (k', v') :: d' =>
      if String.eqb k' k then (k, v) :: d' else (k', v') :: dict_set d' k v
  end.

Fixpoint dict_get (d : dict) (k : string) : option Z :=
  match d with
  | [] => None
  | (k', v) :: d' => if String.eqb k' k then Some v else dict_get d' k
  end.

Definition keys (d : dict) : list string := map fst d.

(** A frame: the column labels in order and one list of cells per row
    ([None] is the NaN pandas puts where a record lacks a key). *)
Record DataFrame := {
  columns : list string;
  rows : list (list (option Z))
}.

(** [pd.DataFrame(records)] for a list of dicts: the columns are the keys
    in order of first appearance, each record is one row. *)
Definition pd_DataFrame (records : list dict) : DataFrame :=
  let cols :=
    fold_left
      (fun acc d =>
         fold_left
           (fun acc k => if existsb (String.eqb k) acc then acc else acc ++ [k])
           (keys d) acc)
      records [] in
  {| columns := cols; rows := map (fun d => map (dict_get d) cols) records |}.

(** The cell of column [name] in row 0. *)
Fixpoint cell_of (cols : list string) (row : list (option Z)) (name : string)
  : option Z :=
  match cols, row with
  | c :: cols', v :: row' => if String.eqb c name then v else cell_of cols' row' name
  | _, _ => None
  end.

Definition field (df : DataFrame) (name : string) : option Z :=
  match rows df with
  | row :: _ => cell_of (columns df) row name
  | [] => None
  end.

(** ** app.py: extract_features *)

(** r'^\d{1,3}\.\d{1,3}\.\d{1,3}\.\d{1,3}$' *)
Definition ip_pattern : list Re.node :=
  [ Re.Bos;
    Re.Rep Re.Esc_d 1 (Some 3); Re.one (Re.Lit 46);
    Re.Rep Re.Esc_d 1 (Some 3); Re.one (Re.Lit 46);
    Re.Rep Re.Esc_d 1 (Some 3); Re.one (Re.Lit 46);
    Re.Rep Re.Esc_d 1 (Some 3);
    Re.Eol ].

(** r'[@?-_&=%]': the set is compiled from the text between the brackets. *)
Definition special_pattern : Re.atom :=
  match Re.parse_class (lit "@?-_&=%") with
  | Some cs => Re.Class cs
  | None => Re.Class []
  end.

Definition flag (b : bool) : Z := if b then 1%Z else 0%Z.

(** Lines 36 and 39-54: the record built from the raw [url] and the parse
    result, one assignment after the other. *)
Definition features_of `{UnicodeData} (url : str) (parsed_url : UrlParse.ParseResult)
  : DataFrame :=
  let features : dict := [] in
  let features := dict_set features "url_length" (len url) in
  let features := dict_set features "hostname_length"
                    (len (UrlParse.netloc parsed_url)) in
  let features := dict_set features "ip_in_url"
                    (flag (Re.re_match ip_pattern (UrlParse.netloc parsed_url))) in
  let features := dict_set features "https_in_url"
                    (flag (str_eqb (UrlParse.scheme parsed_url) (lit "https"))) in
  let features := dict_set features "special_chars"
                    (len (Re.findall special_pattern url)) in
  let features := dict_set features "num_dots" (count 46 url) in
  let features := dict_set features "at_sign" (flag (contains 64 url)) in
  let features := dict_set features "hyphen_in_url" (flag (contains 45 url)) in
  let parts := split 46 (UrlParse.netloc parsed_url) in
  let features := dict_set features "hyphen_in_subdomain"
                    (flag (existsb (fun part => startswith 45 part || endswith 45 part)
                                   parts)) in
  let domain := UrlParse.netloc parsed_url in
  let features := dict_set features "long_domain"
                    (flag (30 <? len (first (split 46 domain)))%Z) in
  pd_DataFrame [features].

(** [extract_features(url)]: line 37 parses, and a [ValueError] of the
    parser leaves the function. *)
Definition extract_features `{UnicodeData} (url : str) : result DataFrame :=
  parsed_url <- UrlParse.urlparse url ;;
  Ok (features_of url parsed_url).

(** ** functools.lru_cache around urlsplit *)

Module LruCache.

(** The call arguments [(url, scheme, allow_fragments)]. *)
Definition key := (str * str * bool)%type.

Definition key_eqb (a b : key) : bool :=
  let '(u, s, f) := a in
  let '(u', s', f') := b in
  str_eqb u u' && str_eqb s s' && Bool.eqb f f'.

(** The stored results, most recently used first. *)
Definition cache := list (key * UrlParse.ParseResult).

Definition maxsize : nat := 128.

Fixpoint lookup (k : key) (c : cache) : option UrlParse.ParseResult :=
  match c with
  | [] => None
  | (k', v) :: c' => if key_eqb k' k then Some v else lookup k c'
  end.

Definition drop (k : key) (c : cache) : cache :=
  filter (fun e => negb (key_eqb (fst e) k)) c.

(** A hit returns the stored result and makes it the most recent entry; a
    miss runs the function, stores a result (never an exception) and
    evicts the least recently used entry of a full cache. *)
Definition urlsplit `{UnicodeData} (url scheme : str) (allow_fragments : bool)
    (c : cache) : result UrlParse.ParseResult * cache :=
  let k := (url, scheme, allow_fragments) in
  match lookup k c with
  | Some v => (Ok v, (k, v) :: drop k c)
  | None =>
      match UrlParse.urlsplit url scheme allow_fragments with
      | Ok v => (Ok v, firstn maxsize ((k, v) :: c))
      | Raise e => (Raise e, c)
      end
  end.

Definition urlparse `{UnicodeData} (url : str) (c : cache)
  : result UrlParse.ParseResult * cache :=
  let '(r, c) := urlsplit url [] true c in
  (splitresult <- r ;; Ok (UrlParse.urlparse_of splitresult), c).

(** Every stored result is what the function returns on its key. *)
Definition coherent `{UnicodeData} (c : cache) : Prop :=
  forall url scheme allow_fragments v,
    In ((url, scheme, allow_fragments), v) c ->
    UrlParse.urlsplit url scheme allow_fragments = Ok v.

End LruCache.

(** [extract_features(url)] as the interpreter runs it, the parser's cache
    being the only state it reads or writes. *)
Definition extract_features_cached `{UnicodeData} (url : str) (c : LruCache.cache)
  : result DataFrame * LruCache.cache :=
  let '(r, c) := LruCache.urlparse url c in
  (parsed_url <- r ;; Ok (features_of url parsed_url), c).

(** ** app.py: the button handler *)

Module App.

(** What the script asks of Streamlit, of [extract_features] and of the
    loaded classifier, in the order it asks.  [F] is the type of floats;
    a formatted probability and the exception of the error message are
    carried unformatted, and the bar chart takes the importances by
    column, before its ordering by value. *)
Inductive effect (F : Type) :=
| st_warning (body : string)
| st_spinner (text : string)
| st_error (body : string)
| st_success (body : string)
| st_write_probability (label : string) (p : F)
| st_markdown (body : string)
| st_subheader (body : string)
| st_write (body : string)
| st_bar_chart (data : list (string * F))
| st_altair_chart
| st_error_exception (e : exn)
| st_info (body : string)
| call_extract_features (url : str)
| call_predict (features_df : DataFrame)
| call_predict_proba (features_df : DataFrame).
Arguments st_warning {F}.
Arguments st_spinner {F}.
Arguments st_error {F}.
Arguments st_success {F}.
Arguments st_write_probability {F}.
Arguments st_markdown {F}.
Arguments st_subheader {F}.
Arguments st_write {F}.
Arguments st_bar_chart {F}.
Arguments st_altair_chart {F}.
Arguments st_error_exception {F}.
Arguments st_info {F}.
Arguments call_extract_features {F}.
Arguments call_predict {F}.
Arguments call_predict_proba {F}.

(** The unpickled classifier: an external object with two methods that may
    raise and an optional attribute. *)
Record Model (F : Type) := {
  predict : DataFrame -> result (list Z);
  predict_proba : DataFrame -> result (list (list F));
  feature_importances_ : option (list F)
}.
Arguments predict {F}.
Arguments predict_proba {F}.
Arguments feature_importances_ {F}.

(** A run: the effects so far and a value or the exception that stopped it. *)
Definition io (F A : Type) : Type := (list (effect F) * result A)%type.

Definition io_bind {F A B} (p : io F A) (k : A -> io F B) : io F B :=
  match p with
  | (t, Ok a) => let '(t', r) := k a in (t ++ t', r)
  | (t, Raise e) => (t, Raise e)
  end.

Definition emit {F} (e : effect F) : io F unit := ([e], Ok tt).
Definition lift {F A} (r : result A) : io F A := ([], r).

(** [try: p except Exception as e: h e]. *)
Definition try_except {F A} (p : io F A) (h : exn -> io F A) : io F A :=
  match p with
  | (t, Raise e) => let '(t', r) := h e in (t ++ t', r)
  | (t, Ok a) => (t, Ok a)
  end.

Notation "x <~ p ;; k" := (io_bind p (fun x => k))
  (at level 61, p at next level, right associativity).
Notation "p >> k" := (io_bind p (fun _ => k))
  (at level 61, right associativity).

Definition item {A} (i : nat) (l : list A) : result A :=
  match nth_error l i with
  | Some x => Ok x
  | None => Raise (IndexError "index out of range")
  end.

(** The labels of [df.index] (lines 15-28): the integers 0 to 5. *)
Inductive pyval :=
| PyInt (z : Z)
| PyStr (s : str).

Definition df_index : list pyval := map PyInt [0; 1; 2; 3; 4; 5]%Z.

(** [len(v)]. *)
Definition py_len (v : pyval) : result Z :=
  match v with
  | PyStr s => Ok (len s)
  | PyInt _ => Raise (TypeError "object of type 'int' has no len()")
  end.

Fixpoint comprehension {A B} (f : A -> result B) (l : list A) : result (list B) :=
  match l with
  | [] => Ok []
  | x :: l' => y <- f x ;; ys <- comprehension f l' ;; Ok (y :: ys)
  end.

(** Lines 83-135, the body of the [try]. *)
Definition analyse `{UnicodeData} {F} (model : Model F) (user_input : str)
  : io F unit :=
  emit (call_extract_features user_input) >>
  features_df <~ lift (extract_features user_input) ;;
  emit (call_predict features_df) >>
  prediction <~ lift (predict model features_df) ;;
  emit (call_predict_proba features_df) >>
  prediction_proba <~ lift (predict_proba model features_df) ;;
  label <~ lift (item 0 prediction) ;;
  (if (label =? 1)%Z then
     emit (st_error "⚠️ **위험!** 이 URL은 **피싱 웹사이트**일 가능성이 높습니다.") >>
     p <~ lift (row <- item 0 prediction_proba ;; item 1 row) ;;
     emit (st_write_probability "확률:" p)
   else
     emit (st_success "✅ **안전!** 이 URL은 **안전한 사이트**로 탐지되었습니다.") >>
     p <~ lift (row <- item 0 prediction_proba ;; item 0 row) ;;
     emit (st_write_probability "확률:" p)) >>
  emit (st_markdown "---") >>
  emit (st_subheader "모델 분석") >>
  emit (st_markdown "모델이 URL을 어떻게 분석했는지 주요 특징을 보여드립니다.") >>
  (match feature_importances_ model with
   | Some importances =>
       (* a frame indexed by the columns needs one value per column *)
       (if Nat.eqb (List.length importances) (List.length (columns features_df))
        then lift (Ok tt)
        else lift (Raise (ValueError "Shape of passed values"))) >>
       emit (st_write "**주요 특징 중요도**") >>
       emit (st_bar_chart (combine (columns features_df) importances)) >>
       emit (st_markdown "높은 막대일수록 모델이 판별에 중요하게 사용한 특징입니다.")
   | None => lift (Ok tt)
   end) >>
  emit (st_write "**URL 길이 분포**") >>
  (* line 113 takes [len] of the integer labels of [df.index] *)
  _ <~ lift (comprehension py_len df_index) ;;
  emit st_altair_chart >>
  emit (st_markdown "일반적으로 피싱 사이트의 URL 길이가 더 긴 경향이 있습니다.").

(** Lines 76-139: one run of the script with the button pressed or not. *)
Definition on_button `{UnicodeData} {F} (model : Model F) (button : bool)
    (user_input : str) : list (effect F) :=
  if button then
    if match user_input with [] => true | _ => false end
       || str_eqb user_input (lit "https://")
    then [st_warning "URL을 입력해주세요."]
    else
      st_spinner "분석 중..." ::
      fst (try_except (analyse model user_input)
             (fun e =>
                emit (st_error_exception e) >>
                emit (st_info "올바른 URL 형식을 입력했는지 확인해주세요.")))
  else [].

End App.

(** ** Definitions the statements use *)

(** The stages of [urlsplit] that decide the authority: the text after
    stripping and removal of tab, CR and LF, the text after an accepted
    scheme, and the authority cut out of it. *)
Definition cleaned (url : str) : str :=
  fold_left (fun u b => remove b u) UrlParse._UNSAFE_URL_BYTES_TO_REMOVE
    (lstrip UrlParse._WHATWG_C0_CONTROL_OR_SPACE url).

Definition after_scheme (url : str) : str :=
  let u := cleaned url in
  let i := find 58 0 u in
  if (0 <? i)%Z && isascii_alpha (hd 0%N u) then
    if forallb (fun c => contains c UrlParse.scheme_chars) (slice_to i u)
    then slice_from (i + 1) u
    else u
  else u.

Definition authority (url : str) : str :=
  let u := after_scheme url in
  if str_eqb (slice_to 2 u) (lit "//") then fst (UrlParse._splitnetloc u 2) else [].

(** The ten fields of the data model, in the order the code assigns them. *)
Definition feature_names : list string :=
  [ "url_length"; "hostname_length"; "ip_in_url"; "https_in_url";
    "special_chars"; "num_dots"; "at_sign"; "hyphen_in_url";
    "hyphen_in_subdomain"; "long_domain" ]%string.

(** A record with exactly the ten fields, one row, every cell a
    non-negative integer. *)
Definition feature_record (df : DataFrame) : Prop :=
  columns df = feature_names /\
  exists vals : list Z,
    rows df = [map Some vals] /\
    List.length vals = 10%nat /\
    Forall (fun v => (0 <= v)%Z) vals.

Definition is_ValueError (e : exn) : Prop := exists msg, e = ValueError msg.

(** The set of the specification: @ ? - _ & = % *)
Definition spec_special_set : str := lit "@?-_&=%".

Definition spec_special_chars (url : str) : Z :=
  len (filter (fun c => contains c spec_special_set) url).

(** What the compiled set of the source accepts: @ & = % and every code
    point from ? to _ (the capital letters among them). *)
Definition code_special (c : N) : bool :=
  N.eqb c 64 || ((63 <=? c)%N && (c <=? 95)%N) || N.eqb c 38 || N.eqb c 61
  || N.eqb c 37.

(** One to three decimal digits. *)
Definition digit_group `{UnicodeData} (g : str) : Prop :=
  (1 <= List.length g <= 3)%nat /\ Forall (fun c => Re.is_decimal c = true) g.

(** The whole string is four digit groups separated by dots. *)
Definition dotted_quad `{UnicodeData} (h : str) : Prop :=
  exists a b c d,
    digit_group a /\ digit_group b /\ digit_group c /\ digit_group d /\
    h = a ++ 46%N :: b ++ 46%N :: c ++ 46%N :: d.

(** [ls] are the dot-separated labels of [h]: at least one, none holds a
    dot, and joined by dots they give [h] back. *)
Fixpoint join (sep : N) (ls : list str) : str :=
  match ls with
  | [] => []
  | [l] => l
  | l :: ls' => l ++ sep :: join sep ls'
  end.

Definition labels_of (h : str) (ls : list str) : Prop :=
  ls <> [] /\ Forall (fun l => ~ In 46%N l) ls /\ join 46 ls = h.

(** The label starts or ends with a hyphen. *)
Definition edge_hyphen (l : str) : Prop :=
  (exists t, l = 45%N :: t) \/ (exists t, l = t ++ [45%N]).

(** An effect that runs the extractor or the classifier. *)
Definition is_call {F} (e : App.effect F) : bool :=
  match e with
  | App.call_extract_features _ | App.call_predict _ | App.call_predict_proba _ => true
  | _ => false
  end.

(** Tables that know nothing outside ASCII, for closed examples. *)
Definition ascii_tables : UnicodeData :=
  {| category_Nd := fun _ => false; normalize_NFKC := fun s => s |}.

(** A classifier that always answers "safe". *)
Definition constant_model : App.Model unit :=
  {| App.predict := fun _ => Ok [0%Z];
     App.predict_proba := fun _ => Ok [[tt; tt]];
     App.feature_importances_ := None |}.

(** The scheme [urlsplit] finds: the lowered text before the first colon
    when it starts with a letter and is made of [scheme_chars]. *)
Definition scheme_of (url : str) : str :=
  let u := cleaned url in
  let i := find 58 0 u in
  if (0 <? i)%Z && isascii_alpha (hd 0%N u) then
    if forallb (fun c => contains c UrlParse.scheme_chars) (slice_to i u)
    then lower (slice_to i u)
    else []
  else [].

(** The two messages of the [except] branch (lines 137-139). *)
Definition except_branch {F} (e : exn) : list (App.effect F) :=
  [ App.st_error_exception e;
    App.st_info "올바른 URL 형식을 입력했는지 확인해주세요." ].

(** A classifier whose [predict] fails. *)
Definition raising_model : App.Model unit :=
  {| App.predict := fun _ => Raise (OtherError "not fitted");
     App.predict_proba := fun _ => Ok [[tt; tt]];
     App.feature_importances_ := None |}.

(** ** Python strings: lemmas *)

Lemma contains_In (c : N) (s : str) : contains c s = true <-> In c s.
Proof.
  unfold contains. rewrite existsb_exists. split.
  - intros (x & Hx & E). apply N.eqb_eq in E. now subst.
  - intros Hc. exists c. split; [assumption | apply N.eqb_refl].
Qed.

Lemma str_eqb_eq (s t : str) : str_eqb s t = true <-> s = t.
Proof.
  unfold str_eqb. destruct (list_eq_dec N.eq_dec s t); split; congruence.
Qed.

Lemma len_nonneg {A} (l : list A) : (0 <= len l)%Z.
Proof. unfold len. lia. Qed.

Lemma lstrip_incl (chars s : str) : incl (lstrip chars s) s.
Proof.
  induction s as [|c s IH]; simpl.
  - apply incl_refl.
  - destruct (contains c chars).
    + now apply incl_tl.
    + apply incl_refl.
Qed.

Lemma remove_In (c x : N) (s : str) : In x (remove c s) <-> In x s /\ x <> c.
Proof.
  unfold remove. rewrite filter_In, negb_true_iff, N.eqb_neq. tauto.
Qed.

Lemma slice_from_incl (i : Z) (s : str) : incl (slice_from i s) s.
Proof.
  unfold slice_from. intros x Hx.
  rewrite <- (firstn_skipn (Z.to_nat i) s). apply in_or_app. now right.
Qed.

Lemma slice_to_incl (i : Z) (s : str) : incl (slice_to i s) s.
Proof.
  unfold slice_to. intros x Hx.
  rewrite <- (firstn_skipn (Z.to_nat i) s). apply in_or_app. now left.
Qed.

Lemma slice_incl (i j : Z) (s : str) : incl (slice i j s) s.
Proof.
  unfold slice. eapply incl_tran; [apply slice_from_incl | apply slice_to_incl].
Qed.

Lemma cleaned_incl (url : str) : incl (cleaned url) url.
Proof.
  unfold cleaned. simpl. intros x Hx.
  repeat (apply remove_In in Hx; destruct Hx as [Hx _]).
  now apply lstrip_incl in Hx.
Qed.

Lemma cleaned_no_newline (url : str) : ~ In 10%N (cleaned url).
Proof.
  unfold cleaned. simpl. intros Hx.
  apply remove_In in Hx. destruct Hx as [_ Hx]. now apply Hx.
Qed.

Lemma after_scheme_incl (url : str) : incl (after_scheme url) (cleaned url).
Proof.
  unfold after_scheme.
  destruct (_ && _); [|apply incl_refl].
  destruct (forallb _ _); [apply slice_from_incl | apply incl_refl].
Qed.

Lemma authority_cleaned (url : str) : incl (authority url) (cleaned url).
Proof.
  unfold authority.
  destruct (str_eqb _ _); [|intros x []].
  unfold UrlParse._splitnetloc. simpl fst.
  eapply incl_tran; [apply slice_incl | apply after_scheme_incl].
Qed.

(** Every character of the authority is a character of the raw input. *)
Lemma authority_incl (url : str) : incl (authority url) url.
Proof.
  eapply incl_tran; [apply authority_cleaned | apply cleaned_incl].
Qed.

(** The authority never holds a newline: [urlsplit] removed them all. *)
Lemma authority_no_newline (url : str) : ~ In 10%N (authority url).
Proof.
  intros Hx. apply authority_cleaned in Hx. now apply cleaned_no_newline in Hx.
Qed.

(** ** urlsplit: what it returns and when it raises *)

Lemma ValueError_is (msg : string) : is_ValueError (ValueError msg).
Proof. now exists msg. Qed.

Lemma ip_address_raises (a : str) (e : exn) :
  Ipaddress.ip_address a = Raise e -> is_ValueError e.
Proof.
  unfold Ipaddress.ip_address.
  destruct (Ipaddress.IPv4Address a); [discriminate|].
  destruct (Ipaddress.IPv6Address a); [discriminate|].
  intros [= <-]. apply ValueError_is.
Qed.

Lemma check_bracketed_host_raises `{UnicodeData} (h : str) (e : exn) :
  UrlParse._check_bracketed_host h = Raise e -> is_ValueError e.
Proof.
  unfold UrlParse._check_bracketed_host.
  destruct (startswith 118 h).
  - destruct (negb _); [|discriminate]. intros [= <-]. apply ValueError_is.
  - destruct (Ipaddress.ip_address h) as [[n|n]|e'] eqn:E; simpl.
    + intros [= <-]. apply ValueError_is.
    + discriminate.
    + intros [= <-]. now apply ip_address_raises in E.
Qed.

Lemma check_bracketed_netloc_raises `{UnicodeData} (nl : str) (e : exn) :
  UrlParse._check_bracketed_netloc nl = Raise e -> is_ValueError e.
Proof.
  unfold UrlParse._check_bracketed_netloc.
  destruct (rpartition 64 nl) as [[? ?] hp].
  destruct (partition 91 hp) as [[before have_open_br] bracketed].
  destruct have_open_br.
  - destruct before.
    + destruct (partition 93 bracketed) as [[hostname ?] port].
      destruct port.
      * apply check_bracketed_host_raises.
      * destruct (negb _); [|apply check_bracketed_host_raises].
        intros [= <-]. apply ValueError_is.
    + intros [= <-]. apply ValueError_is.
  - destruct (partition 58 hp) as [[hostname ?] port].
    apply check_bracketed_host_raises.
Qed.

Lemma checknetloc_raises `{UnicodeData} (nl : str) (e : exn) :
  UrlParse._checknetloc nl = Raise e ->
  is_ValueError e /\ forallb isascii nl = false.
Proof.
  unfold UrlParse._checknetloc.
  destruct nl as [|c nl]; [discriminate|].
  destruct (forallb isascii (c :: nl)); [discriminate|].
  destruct (str_eqb _ _); [discriminate|].
  destruct (existsb _ _); [|discriminate].
  intros [= <-]. split; [apply ValueError_is | reflexivity].
Qed.

(** The authority branch of [urlsplit], up to and including the bracket
    checks. *)
Ltac split_tail nl :=
  lazymatch goal with
  | |- context [UrlParse._splitnetloc ?u 2] =>
      destruct (UrlParse._splitnetloc u 2) as [nl ?rest]; simpl fst
  end;
  destruct (contains 91 nl) eqn:?Ho; destruct (contains 93 nl) eqn:?Hc; simpl;
  try (split; [apply ValueError_is | rewrite <- !contains_In; auto]);
  [ destruct (UrlParse._check_bracketed_netloc nl) as [[]|?e] eqn:?Hb; simpl;
    [ | split; [ eapply check_bracketed_netloc_raises; eassumption
               | rewrite <- !contains_In; auto ] ]
  | ].

(** The fragment and query splits and the final [_checknetloc]. *)
Ltac finish_tail :=
  simpl;
  repeat lazymatch goal with
    | |- context [match ?x with pair _ _ => _ end] => destruct x as [? ?]
    end;
  simpl;
  try lazymatch goal with
    | |- context [UrlParse._checknetloc ?nl] =>
        let Hn := fresh "Hn" in
        destruct (UrlParse._checknetloc nl) as [[]|?e] eqn:Hn; simpl;
        [ | apply checknetloc_raises in Hn; destruct Hn; split; auto ]
    end;
  try reflexivity.

(** A result carries the authority computed by the three stages; an
    exception is a [ValueError], and needs a bracket or a non-ASCII
    character in the authority. *)
Lemma urlsplit_inv `{UnicodeData} (url sch : str) (af : bool) :
  match UrlParse.urlsplit url sch af with
  | Ok p => UrlParse.netloc p = authority url
  | Raise e => is_ValueError e /\
      (In 91%N (authority url) \/ In 93%N (authority url)
       \/ forallb isascii (authority url) = false)
  end.
Proof.
  unfold UrlParse.urlsplit, authority, after_scheme.
  fold (cleaned url).
  set (u := cleaned url).
  set (sc := fold_left _ _ (strip _ sch)).
  destruct ((0 <? find 58 0 u)%Z && isascii_alpha (hd 0%N u));
    [destruct (forallb _ (slice_to _ u))|];
    match goal with
    | |- context [str_eqb (slice_to 2 ?v) _] =>
        destruct (str_eqb (slice_to 2 v) (lit "//"))
    end;
    try (split_tail nl); finish_tail.
Qed.
(** ** The regular expressions: lemmas *)

(** A bounded repetition matches exactly when some prefix of [lo] to [hi]
    accepted characters is followed by a match of the continuation. *)
Lemma rep_spec (am : N -> bool) (k : nat -> str -> bool) (hi : nat) :
  forall lo pos s,
    Re.rep am k lo hi pos s = true <->
    exists pre post,
      s = pre ++ post /\ (lo <= List.length pre <= hi)%nat /\
      forallb am pre = true /\ k (pos + List.length pre)%nat post = true.
Proof.
  induction hi as [|hi IH]; intros lo pos s; simpl.
  - rewrite andb_true_iff, Nat.eqb_eq. split.
    + intros [-> Hk]. exists [], s. simpl. rewrite Nat.add_0_r. auto.
    + intros (pre & post & -> & Hl & _ & Hk).
      destruct pre; simpl in *; [|lia]. rewrite Nat.add_0_r in Hk.
      split; [lia | assumption].
  - destruct s as [|c s].
    + rewrite andb_true_iff, Nat.eqb_eq. split.
      * intros [-> Hk]. exists [], []. simpl. rewrite Nat.add_0_r.
        repeat split; auto; lia.
      * intros (pre & post & E & Hl & _ & Hk).
        symmetry in E. apply app_eq_nil in E. destruct E as [-> ->].
        simpl in *. rewrite Nat.add_0_r in Hk. split; [lia | assumption].
    + rewrite orb_true_iff, !andb_true_iff, Nat.eqb_eq, IH. split.
      * intros [[Hc (pre & post & -> & Hl & Hf & Hk)] | [-> Hk]].
        -- exists (c :: pre), post. simpl. rewrite Hc, Hf.
           rewrite Nat.add_succ_r. simpl in Hk.
           repeat split; auto; lia.
        -- exists [], (c :: s). simpl. rewrite Nat.add_0_r.
           repeat split; auto; lia.
      * intros (pre & post & E & Hl & Hf & Hk).
        destruct pre as [|x pre]; simpl in *.
        -- right. rewrite Nat.add_0_r in Hk. subst post. split; [lia | assumption].
        -- injection E as -> ->. apply andb_true_iff in Hf. destruct Hf as [Hx Hf].
           left. split; [assumption|]. exists pre, post.
           rewrite Nat.add_succ_r in Hk. repeat split; auto; lia.
Qed.

Lemma run_Rep `{UnicodeData} (a : Re.atom) (lo hi : nat) (p : list Re.node)
    (pos : nat) (s : str) :
  Re.run (Re.Rep a lo (Some hi) :: p) pos s = true <->
  exists pre post,
    s = pre ++ post /\ (lo <= List.length pre <= hi)%nat /\
    forallb (Re.atom_matches a) pre = true /\
    Re.run p (pos + List.length pre)%nat post = true.
Proof. simpl. apply rep_spec. Qed.

Lemma run_Lit `{UnicodeData} (c : N) (p : list Re.node) (pos : nat) (s : str) :
  Re.run (Re.one (Re.Lit c) :: p) pos s = true <->
  exists post, s = c :: post /\ Re.run p (S pos) post = true.
Proof.
  unfold Re.one. rewrite run_Rep. split.
  - intros (pre & post & -> & Hl & Hf & Hk).
    destruct pre as [|x [|y pre]]; simpl in *; try lia.
    rewrite andb_true_r in Hf. apply N.eqb_eq in Hf. subst x.
    exists post. rewrite Nat.add_1_r in Hk. auto.
  - intros (post & -> & Hk). exists [c], post. simpl.
    rewrite N.eqb_refl, Nat.add_1_r. repeat split; auto.
Qed.

Lemma run_Eol `{UnicodeData} (pos : nat) (s : str) :
  Re.run [Re.Eol] pos s = true <-> s = [] \/ s = [10%N].
Proof.
  simpl. destruct s as [|c [|d s]].
  - tauto.
  - rewrite andb_true_r, N.eqb_eq. split.
    + intros ->. now right.
    + intros [E|E]; [discriminate | now injection E].
  - split; [discriminate | intros [E|E]; discriminate].
Qed.

Lemma forallb_decimal `{UnicodeData} (lo hi : nat) (g : str) :
  (lo <= List.length g <= hi)%nat /\ forallb (Re.atom_matches Re.Esc_d) g = true <->
  (lo <= List.length g <= hi)%nat /\ Forall (fun c => Re.is_decimal c = true) g.
Proof. now rewrite forallb_forall, Forall_forall. Qed.

(** [re.match] of the source's pattern: four digit groups separated by
    dots, then the end of the string or a single final newline. *)
Lemma ip_pattern_spec `{UnicodeData} (h : str) :
  Re.re_match ip_pattern h = true <->
  exists a b c d r,
    digit_group a /\ digit_group b /\ digit_group c /\ digit_group d /\
    (r = [] \/ r = [10%N]) /\
    h = a ++ 46%N :: b ++ 46%N :: c ++ 46%N :: d ++ r.
Proof.
  unfold Re.re_match, ip_pattern, digit_group.
  change (Re.run (Re.Bos :: ?p) 0 h) with (Re.run p 0 h).
  split.
  - intros Hm.
    apply run_Rep in Hm. destruct Hm as (a & r1 & -> & Ha & Hfa & Hm).
    apply run_Lit in Hm. destruct Hm as (r1' & -> & Hm).
    apply run_Rep in Hm. destruct Hm as (b & r2 & -> & Hb & Hfb & Hm).
    apply run_Lit in Hm. destruct Hm as (r2' & -> & Hm).
    apply run_Rep in Hm. destruct Hm as (c & r3 & -> & Hc & Hfc & Hm).
    apply run_Lit in Hm. destruct Hm as (r3' & -> & Hm).
    apply run_Rep in Hm. destruct Hm as (d & r & -> & Hd & Hfd & Hm).
    apply run_Eol in Hm.
    exists a, b, c, d, r.
    repeat split; try lia; try (apply forallb_decimal with (lo := 1%nat) (hi := 3%nat); auto); auto.
  - intros (a & b & c & d & r & Ha & Hb & Hc & Hd & Hr & ->).
    apply forallb_decimal in Ha, Hb, Hc, Hd.
    destruct Ha as [Ha Hfa], Hb as [Hb Hfb], Hc as [Hc Hfc], Hd as [Hd Hfd].
    apply run_Rep. exists a. eexists. repeat split; eauto; try lia.
    apply run_Lit. eexists. split; [reflexivity|].
    apply run_Rep. exists b. eexists. repeat split; eauto; try lia.
    apply run_Lit. eexists. split; [reflexivity|].
    apply run_Rep. exists c. eexists. repeat split; eauto; try lia.
    apply run_Lit. eexists. split; [reflexivity|].
    apply run_Rep. exists d, r. repeat split; eauto; try lia.
    now apply run_Eol.
Qed.

(** On a string without newline, [re.match] of the pattern is an exact
    whole-string match. *)
Lemma ip_pattern_whole `{UnicodeData} (h : str) :
  ~ In 10%N h -> (Re.re_match ip_pattern h = true <-> dotted_quad h).
Proof.
  intros Hn. rewrite ip_pattern_spec. unfold dotted_quad. split.
  - intros (a & b & c & d & r & Ha & Hb & Hc & Hd & [->| ->] & ->).
    + exists a, b, c, d. rewrite app_nil_r. auto.
    + exfalso. apply Hn.
      do 3 (apply in_or_app; right; apply in_cons).
      apply in_or_app. right. now left.
  - intros (a & b & c & d & Ha & Hb & Hc & Hd & ->).
    exists a, b, c, d, []. rewrite app_nil_r. auto 10.
Qed.
(** ** split and the labels of a host *)

Lemma split_nonempty (sep : N) (s : str) : split sep s <> [].
Proof.
  destruct s as [|c s]; simpl; [discriminate|].
  destruct (N.eqb c sep); [discriminate|].
  destruct (split sep s); discriminate.
Qed.

Lemma join_cons (sep : N) (l : str) (ls : list str) :
  ls <> [] -> join sep (l :: ls) = l ++ sep :: join sep ls.
Proof. destruct ls; [congruence | reflexivity]. Qed.

Lemma join_split (sep : N) (s : str) : join sep (split sep s) = s.
Proof.
  induction s as [|c s IH]; simpl; [reflexivity|].
  destruct (N.eqb c sep) eqn:E.
  - apply N.eqb_eq in E. subst c.
    rewrite join_cons by apply split_nonempty. simpl. now rewrite IH.
  - pose proof (split_nonempty sep s) as Hne.
    destruct (split sep s) as [|p ps]; [congruence|].
    destruct ps as [|q ps]; simpl in *; now rewrite <- IH.
Qed.

Lemma split_no_sep (sep : N) (s : str) :
  Forall (fun l => ~ In sep l) (split sep s).
Proof.
  induction s as [|c s IH]; simpl.
  - constructor; [intros [] | constructor].
  - destruct (N.eqb c sep) eqn:E.
    + constructor; [intros [] | assumption].
    + apply N.eqb_neq in E.
      destruct (split sep s) as [|p ps]; [repeat constructor; intros [?|[]]; congruence|].
      inversion IH as [|? ? Hp Hps]; subst.
      constructor; [|assumption].
      intros [?|?]; [congruence | contradiction].
Qed.

Lemma split_app_sep (sep : N) (l rest : str) :
  ~ In sep l -> split sep (l ++ sep :: rest) = l :: split sep rest.
Proof.
  induction l as [|c l IH]; intros Hl; simpl.
  - now rewrite N.eqb_refl.
  - destruct (N.eqb c sep) eqn:E.
    + apply N.eqb_eq in E. exfalso. apply Hl. now left.
    + rewrite IH; [reflexivity|]. intros Hc. apply Hl. now right.
Qed.

Lemma split_single (sep : N) (l : str) : ~ In sep l -> split sep l = [l].
Proof.
  induction l as [|c l IH]; intros Hl; simpl; [reflexivity|].
  destruct (N.eqb c sep) eqn:E.
  - apply N.eqb_eq in E. exfalso. apply Hl. now left.
  - rewrite IH; [reflexivity|]. intros Hc. apply Hl. now right.
Qed.

Lemma split_join (sep : N) (ls : list str) :
  ls <> [] -> Forall (fun l => ~ In sep l) ls -> split sep (join sep ls) = ls.
Proof.
  induction ls as [|l ls IH]; intros Hne Hf; [congruence|].
  inversion Hf as [|? ? Hl Hls]; subst.
  destruct ls as [|l' ls].
  - simpl. now apply split_single.
  - rewrite join_cons by discriminate.
    rewrite split_app_sep by assumption.
    f_equal. apply IH; [discriminate | assumption].
Qed.

(** [host.split('.')] is the one list of dot-separated labels of the host. *)
Lemma labels_of_split (h : str) (ls : list str) :
  labels_of h ls <-> ls = split 46 h.
Proof.
  unfold labels_of. split.
  - intros (Hne & Hf & <-). symmetry. now apply split_join.
  - intros ->. split; [apply split_nonempty|].
    split; [apply split_no_sep | apply join_split].
Qed.

Lemma join_incl (sep : N) (ls : list str) (l : str) :
  In l ls -> incl l (join sep ls).
Proof.
  induction ls as [|x ls IH]; intros Hl; [destruct Hl|].
  destruct ls as [|y ls].
  - destruct Hl as [->|[]]. apply incl_refl.
  - rewrite join_cons by discriminate. destruct Hl as [->|Hl].
    + now apply incl_appl, incl_refl.
    + apply incl_appr, incl_tl, IH, Hl.
Qed.

(** A label of the split host is made of characters of the host. *)
Lemma split_incl (sep : N) (s l : str) : In l (split sep s) -> incl l s.
Proof.
  intros Hl. pose proof (join_incl sep _ _ Hl) as Hi.
  now rewrite join_split in Hi.
Qed.

Lemma startswith_spec (c : N) (l : str) :
  startswith c l = true <-> exists t, l = c :: t.
Proof.
  destruct l as [|x l]; simpl.
  - split; [discriminate | intros (t & E); discriminate].
  - rewrite N.eqb_eq. split.
    + intros ->. now exists l.
    + intros (t & E). now injection E.
Qed.

Lemma endswith_spec (c : N) (l : str) :
  endswith c l = true <-> exists t, l = t ++ [c].
Proof.
  unfold endswith. rewrite startswith_spec. split.
  - intros (t & E). exists (rev t).
    rewrite <- (rev_involutive l), E. reflexivity.
  - intros (t & ->). exists (rev t). now rewrite rev_app_distr.
Qed.

Lemma edge_hyphen_spec (l : str) :
  startswith 45 l || endswith 45 l = true <-> edge_hyphen l.
Proof.
  unfold edge_hyphen.
  now rewrite orb_true_iff, startswith_spec, endswith_spec.
Qed.

Lemma edge_hyphen_In (l : str) : edge_hyphen l -> In 45%N l.
Proof.
  intros [(t & ->)|(t & ->)].
  - now left.
  - apply in_or_app. right. now left.
Qed.

(** ** The character set of special_chars *)

Lemma special_pattern_compiled :
  special_pattern =
  Re.Class [Re.Single 64; Re.Range 63 95; Re.Single 38; Re.Single 61; Re.Single 37].
Proof. reflexivity. Qed.

Lemma special_pattern_matches `{UnicodeData} (c : N) :
  Re.atom_matches special_pattern c = code_special c.
Proof.
  rewrite special_pattern_compiled. unfold code_special. simpl.
  now rewrite orb_false_r, !orb_assoc.
Qed.

Lemma map_singleton_length {A} (l : list A) :
  List.length (map (fun c => [c]) l) = List.length l.
Proof. apply length_map. Qed.

(** ** The fields of the record *)

Section Fields.
Context `{UnicodeData}.
Variables (url : str) (p : UrlParse.ParseResult).

Lemma columns_features_of : columns (features_of url p) = feature_names.
Proof. reflexivity. Qed.

Lemma rows_features_of :
  rows (features_of url p) =
  [map Some
     [ len url;
       len (UrlParse.netloc p);
       flag (Re.re_match ip_pattern (UrlParse.netloc p));
       flag (str_eqb (UrlParse.scheme p) (lit "https"));
       len (Re.findall special_pattern url);
       count 46 url;
       flag (contains 64 url);
       flag (contains 45 url);
       flag (existsb (fun part => startswith 45 part || endswith 45 part)
               (split 46 (UrlParse.netloc p)));
       flag (30 <? len (first (split 46 (UrlParse.netloc p))))%Z ]].
Proof. reflexivity. Qed.

End Fields.
(** ** extract_features: inversion *)

Lemma urlparse_inv `{UnicodeData} (url : str) (p : UrlParse.ParseResult) :
  UrlParse.urlparse url = Ok p -> UrlParse.netloc p = authority url.
Proof.
  unfold UrlParse.urlparse.
  pose proof (urlsplit_inv url [] true) as Hs.
  destruct (UrlParse.urlsplit url [] true) as [sr|e]; simpl; [|discriminate].
  intros [= <-]. unfold UrlParse.urlparse_of.
  destruct (if _ : bool then _ else _). exact Hs.
Qed.

Lemma urlparse_raises `{UnicodeData} (url : str) (e : exn) :
  UrlParse.urlparse url = Raise e ->
  is_ValueError e /\
  (In 91%N (authority url) \/ In 93%N (authority url)
   \/ forallb isascii (authority url) = false).
Proof.
  unfold UrlParse.urlparse.
  pose proof (urlsplit_inv url [] true) as Hs.
  destruct (UrlParse.urlsplit url [] true) as [sr|e']; simpl; [discriminate|].
  now intros [= <-].
Qed.

Lemma extract_features_inv `{UnicodeData} (url : str) (df : DataFrame) :
  extract_features url = Ok df ->
  exists p, UrlParse.urlparse url = Ok p /\ df = features_of url p.
Proof.
  unfold extract_features.
  destruct (UrlParse.urlparse url) as [p|e]; simpl; [|discriminate].
  intros [= <-]. now exists p.
Qed.

Lemma flag_bit (b : bool) : flag b = 1%Z \/ flag b = 0%Z.
Proof. destruct b; auto. Qed.

Lemma flag_true (b : bool) : flag b = 1%Z <-> b = true.
Proof. destruct b; simpl; split; congruence. Qed.

Lemma flag_nonneg (b : bool) : (0 <= flag b)%Z.
Proof. destruct b; simpl; lia. Qed.

Lemma Some_flag (b : bool) : Some (flag b) = Some 1%Z <-> b = true.
Proof. rewrite <- flag_true. split; congruence. Qed.

Lemma features_of_record `{UnicodeData} (url : str) (p : UrlParse.ParseResult) :
  feature_record (features_of url p).
Proof.
  split; [apply columns_features_of|].
  eexists. split; [apply rows_features_of|]. split; [reflexivity|].
  repeat constructor; try apply len_nonneg; try apply flag_nonneg.
Qed.

(** ** The parser's cache is transparent *)

Lemma firstn_incl {A} (n : nat) (l : list A) : incl (firstn n l) l.
Proof.
  intros x Hx. rewrite <- (firstn_skipn n l). apply in_or_app. now left.
Qed.

Lemma key_eqb_eq (a b : LruCache.key) : LruCache.key_eqb a b = true <-> a = b.
Proof.
  destruct a as [[u s] f], b as [[u' s'] f']. unfold LruCache.key_eqb.
  rewrite !andb_true_iff, !str_eqb_eq, Bool.eqb_true_iff.
  split; [intros [[-> ->] ->]; reflexivity | intros [= -> -> ->]; auto].
Qed.

Lemma lookup_In (k : LruCache.key) (c : LruCache.cache) (v : UrlParse.ParseResult) :
  LruCache.lookup k c = Some v -> In (k, v) c.
Proof.
  induction c as [|[k' v'] c IH]; simpl; [discriminate|].
  destruct (LruCache.key_eqb k' k) eqn:E.
  - apply key_eqb_eq in E. intros [= ->]. subst. now left.
  - intros Hl. right. now apply IH.
Qed.

Lemma coherent_nil `{UnicodeData} : LruCache.coherent [].
Proof. intros ? ? ? ? []. Qed.

Lemma coherent_incl `{UnicodeData} (c c' : LruCache.cache) :
  incl c' c -> LruCache.coherent c -> LruCache.coherent c'.
Proof. intros Hi Hc u s f v Hin. apply Hc, Hi, Hin. Qed.

Lemma coherent_cons `{UnicodeData} (u s : str) (f : bool)
    (v : UrlParse.ParseResult) (c : LruCache.cache) :
  UrlParse.urlsplit u s f = Ok v -> LruCache.coherent c ->
  LruCache.coherent ((u, s, f, v) :: c).
Proof.
  intros Hv Hc u' s' f' v' [E|Hin]; [now injection E as <- <- <- <- | now apply Hc].
Qed.

(** A call through the cache returns what the function returns, and leaves
    a coherent cache. *)
Lemma cached_urlsplit_spec `{UnicodeData} (url scheme : str) (af : bool)
    (c : LruCache.cache) :
  LruCache.coherent c ->
  fst (LruCache.urlsplit url scheme af c) = UrlParse.urlsplit url scheme af /\
  LruCache.coherent (snd (LruCache.urlsplit url scheme af c)).
Proof.
  intros Hc. unfold LruCache.urlsplit.
  destruct (LruCache.lookup (url, scheme, af) c) as [v|] eqn:El.
  - apply lookup_In in El. pose proof (Hc _ _ _ _ El) as Hv. simpl.
    split; [now rewrite Hv|].
    apply coherent_cons; [assumption|].
    eapply coherent_incl; [|exact Hc]. intros x Hx.
    unfold LruCache.drop in Hx. now apply filter_In in Hx.
  - destruct (UrlParse.urlsplit url scheme af) as [v|e] eqn:Ev; cbn [fst snd].
    + split; [reflexivity|].
      eapply coherent_incl; [apply firstn_incl|].
      now apply coherent_cons.
    + auto.
Qed.

Lemma extract_features_cached_spec `{UnicodeData} (url : str) (c : LruCache.cache) :
  LruCache.coherent c ->
  fst (extract_features_cached url c) = extract_features url /\
  LruCache.coherent (snd (extract_features_cached url c)).
Proof.
  intros Hc. unfold extract_features_cached, LruCache.urlparse.
  destruct (cached_urlsplit_spec url [] true c Hc) as [Hr Hc'].
  destruct (LruCache.urlsplit url [] true c) as [r c']. simpl in *.
  subst r. split; [|assumption].
  unfold extract_features, UrlParse.urlparse.
  now destruct (UrlParse.urlsplit url [] true).
Qed.

(** ** The claims *)

Lemma forallb_false_witness {A} (f : A -> bool) (l : list A) :
  forallb f l = false -> exists x, In x l /\ f x = false.
Proof.
  induction l as [|a l IH]; simpl; [discriminate|].
  destruct (f a) eqn:E; simpl.
  - intros Hl. destruct (IH Hl) as (x & Hx & Hf). exists x. auto.
  - intros _. exists a. auto.
Qed.

(** C1, as stated, fails: on the input "http://[" the parser rejects the
    unmatched bracket and [extract_features] raises [ValueError], whatever
    the Unicode tables. *)
Lemma C1_raises_on_unmatched_bracket :
  exists e, forall U : UnicodeData,
    @extract_features U (lit "http://[") = Raise e.
Proof. eexists. intros U. vm_compute. reflexivity. Qed.

(** C3, as stated, fails: "https://example.com" has 19 characters, so
    its url_length is not 20. *)
Lemma C3_url_length_is_19_not_20 :
  exists n, n <> 20%Z /\
    forall U : UnicodeData, exists df,
      @extract_features U (lit "https://example.com") = Ok df /\
      field df "url_length" = Some n.
Proof.
  exists 19%Z. split; [discriminate|]. intros U.
  eexists. split; [vm_compute; reflexivity | reflexivity].
Qed.

Section Claims.
Context `{U : UnicodeData}.

(** C1 (amended): for every string, [extract_features] either returns a
    record with exactly the ten fields, one row, every cell a non-negative
    integer, or raises [ValueError]; it can raise only when the input holds
    a square bracket or a non-ASCII character. *)
Theorem C1_record_or_ValueError (s : str) :
  match extract_features s with
  | Ok df => feature_record df
  | Raise e =>
      is_ValueError e /\
      (In 91%N s \/ In 93%N s \/ exists c, In c s /\ (128 <= c)%N)
  end.
Proof.
  destruct (extract_features s) as [df|e] eqn:E.
  - apply extract_features_inv in E. destruct E as (p & _ & ->).
    apply features_of_record.
  - unfold extract_features in E.
    destruct (UrlParse.urlparse s) as [p|e'] eqn:Ep; simpl in E; [discriminate|].
    injection E as <-. apply urlparse_raises in Ep.
    destruct Ep as [Hv Hc]. split; [assumption|].
    destruct Hc as [Hc|[Hc|Hc]].
    + left. now apply authority_incl.
    + right. left. now apply authority_incl.
    + right. right. apply forallb_false_witness in Hc.
      destruct Hc as (c & Hc & Ha). exists c.
      split; [now apply authority_incl|].
      unfold isascii in Ha. apply N.ltb_ge in Ha. exact Ha.
Qed.

(** C2: the code counts the characters the compiled set accepts, which
    are @ & = % and the code points from ? to _; on "http://a-b.com" it
    counts 0 where the set of the specification counts the hyphen. *)
Theorem C2_special_chars_compiled_range :
  (forall s df, extract_features s = Ok df ->
     field df "special_chars" = Some (len (filter code_special s))) /\
  (exists df, extract_features (lit "http://a-b.com") = Ok df /\
     field df "special_chars" = Some 0%Z /\
     spec_special_chars (lit "http://a-b.com") = 1%Z).
Proof.
  split.
  - intros s df E. apply extract_features_inv in E. destruct E as (p & _ & ->).
    change (field (features_of s p) "special_chars")
      with (Some (len (Re.findall special_pattern s))).
    f_equal. unfold Re.findall, len. rewrite length_map.
    f_equal. f_equal. apply filter_ext. apply special_pattern_matches.
  - eexists. split; [vm_compute; reflexivity|]. split; reflexivity.
Qed.

(** C3 (amended): the record of "https://example.com", with the length of
    the URL as the code computes it, 19. *)
Theorem C3_example_com :
  exists df, extract_features (lit "https://example.com") = Ok df /\
    field df "https_in_url" = Some 1%Z /\
    field df "at_sign" = Some 0%Z /\
    field df "ip_in_url" = Some 0%Z /\
    field df "num_dots" = Some 1%Z /\
    field df "hyphen_in_url" = Some 0%Z /\
    field df "long_domain" = Some 0%Z /\
    field df "hyphen_in_subdomain" = Some 0%Z /\
    field df "hostname_length" = Some 11%Z /\
    field df "url_length" = Some 19%Z.
Proof. eexists. split; [vm_compute; reflexivity|]. repeat split. Qed.

(** C4: when the parse succeeds, ip_in_url is 1 exactly when the whole
    parsed host is four groups of one to three digits separated by dots,
    with no bound on the value of a group: the host "999.999.999.999"
    gives 1, and "http://192.168.1.1/login" gives ip_in_url 1 and
    https_in_url 0. *)
Theorem C4_ip_in_url_dotted_quad :
  (forall s p df,
     UrlParse.urlparse s = Ok p -> extract_features s = Ok df ->
     (field df "ip_in_url" = Some 1%Z <-> dotted_quad (UrlParse.netloc p)) /\
     (field df "ip_in_url" = Some 1%Z \/ field df "ip_in_url" = Some 0%Z)) /\
  (exists p df,
     UrlParse.urlparse (lit "http://999.999.999.999") = Ok p /\
     UrlParse.netloc p = lit "999.999.999.999" /\
     extract_features (lit "http://999.999.999.999") = Ok df /\
     field df "ip_in_url" = Some 1%Z) /\
  (exists df,
     extract_features (lit "http://192.168.1.1/login") = Ok df /\
     field df "ip_in_url" = Some 1%Z /\
     field df "https_in_url" = Some 0%Z).
Proof.
  split; [|split].
  - intros s p df Hp E.
    apply extract_features_inv in E. destruct E as (p' & Hp' & ->).
    rewrite Hp in Hp'. injection Hp' as <-.
    change (field (features_of s p) "ip_in_url")
      with (Some (flag (Re.re_match ip_pattern (UrlParse.netloc p)))).
    split.
    + rewrite Some_flag. apply ip_pattern_whole.
      rewrite (urlparse_inv _ _ Hp). apply authority_no_newline.
    + destruct (flag_bit (Re.re_match ip_pattern (UrlParse.netloc p))) as [->| ->]; auto.
  - do 2 eexists. split; [vm_compute; reflexivity|].
    split; [reflexivity|]. split; [vm_compute; reflexivity | reflexivity].
  - eexists. split; [vm_compute; reflexivity|]. split; reflexivity.
Qed.

(** C5: when the parse succeeds, hyphen_in_subdomain is 1 exactly when
    some dot-separated label of the parsed host starts or ends with a
    hyphen, and 0 otherwise; an empty host gives 0; the hosts "-evil.com"
    and "evil-.com" give 1 and a host with interior hyphens only gives 0. *)
Theorem C5_hyphen_in_subdomain_edge_label :
  (forall s p df,
     UrlParse.urlparse s = Ok p -> extract_features s = Ok df ->
     (field df "hyphen_in_subdomain" = Some 1%Z <->
      exists ls l, labels_of (UrlParse.netloc p) ls /\ In l ls /\ edge_hyphen l) /\
     (field df "hyphen_in_subdomain" = Some 1%Z \/
      field df "hyphen_in_subdomain" = Some 0%Z) /\
     (UrlParse.netloc p = [] -> field df "hyphen_in_subdomain" = Some 0%Z)) /\
  (exists df, extract_features (lit "https://-evil.com") = Ok df /\
     field df "hyphen_in_subdomain" = Some 1%Z) /\
  (exists df, extract_features (lit "https://evil-.com") = Ok df /\
     field df "hyphen_in_subdomain" = Some 1%Z) /\
  (exists df,
     extract_features (lit "https://sub--domain.example.co.uk-login.fake.com") = Ok df /\
     field df "hyphen_in_subdomain" = Some 0%Z).
Proof.
  split; [|repeat split; eexists; (split; [vm_compute; reflexivity | reflexivity])].
  intros s p df Hp E.
  apply extract_features_inv in E. destruct E as (p' & Hp' & ->).
  rewrite Hp in Hp'. injection Hp' as <-.
  change (field (features_of s p) "hyphen_in_subdomain")
    with (Some (flag (existsb (fun part => startswith 45 part || endswith 45 part)
                        (split 46 (UrlParse.netloc p))))).
  split; [|split].
  - rewrite Some_flag, existsb_exists. split.
    + intros (l & Hl & He). exists (split 46 (UrlParse.netloc p)), l.
      split; [now apply labels_of_split|]. split; [assumption|].
      now apply edge_hyphen_spec.
    + intros (ls & l & Hls & Hl & He). apply labels_of_split in Hls. subst ls.
      exists l. split; [assumption | now apply edge_hyphen_spec].
  - match goal with |- context [flag ?b] => destruct (flag_bit b) as [->| ->] end; auto.
  - intros ->. reflexivity.
Qed.

(** C6: the record of the empty string has url_length 0, hostname_length
    0 and every boolean field 0. *)
Theorem C6_empty_string :
  exists df, extract_features (lit "") = Ok df /\
    field df "url_length" = Some 0%Z /\
    field df "hostname_length" = Some 0%Z /\
    field df "ip_in_url" = Some 0%Z /\
    field df "https_in_url" = Some 0%Z /\
    field df "at_sign" = Some 0%Z /\
    field df "hyphen_in_url" = Some 0%Z /\
    field df "hyphen_in_subdomain" = Some 0%Z /\
    field df "long_domain" = Some 0%Z.
Proof. eexists. split; [vm_compute; reflexivity|]. repeat split. Qed.

(** C7: on the empty string and on the untouched placeholder "https://"
    a press of the button only issues the warning that asks for a URL:
    [extract_features], [predict] and [predict_proba] are not called. *)
Theorem C7_placeholder_never_classified {F : Type} (model : App.Model F)
    (button : bool) (user_input : str) :
  user_input = lit "" \/ user_input = lit "https://" ->
  App.on_button model button user_input
    = (if button then [App.st_warning "URL을 입력해주세요."] else []) /\
  existsb is_call (App.on_button model button user_input) = false.
Proof.
  intros [-> | ->]; destruct button; split; reflexivity.
Qed.

(** C8: two calls of [extract_features] on the same string return equal
    results: the second call, run in the cache the first one left, and a
    call run in any other state of the parser's cache, return what the
    first returned. *)
Theorem C8_extract_features_deterministic (s : str) (c : LruCache.cache) :
  LruCache.coherent c ->
  fst (extract_features_cached s (snd (extract_features_cached s c)))
    = fst (extract_features_cached s c) /\
  (forall c', LruCache.coherent c' ->
     fst (extract_features_cached s c') = fst (extract_features_cached s c)).
Proof.
  intros Hc.
  destruct (extract_features_cached_spec s c Hc) as [E1 Hc1].
  split.
  - destruct (extract_features_cached_spec s _ Hc1) as [E2 _]. congruence.
  - intros c' Hc'.
    destruct (extract_features_cached_spec s c' Hc') as [E2 _]. congruence.
Qed.

(** C9: a returned record is a table of one row whose columns are, in
    this order, url_length, hostname_length, ip_in_url, https_in_url,
    special_chars, num_dots, at_sign, hyphen_in_url, hyphen_in_subdomain,
    long_domain. *)
Theorem C9_column_order (s : str) (df : DataFrame) :
  extract_features s = Ok df ->
  columns df =
    [ "url_length"; "hostname_length"; "ip_in_url"; "https_in_url";
      "special_chars"; "num_dots"; "at_sign"; "hyphen_in_url";
      "hyphen_in_subdomain"; "long_domain" ]%string /\
  exists row, rows df = [row] /\ List.length row = 10%nat.
Proof.
  intros E. apply extract_features_inv in E. destruct E as (p & _ & ->).
  split; [reflexivity|]. eexists. split; reflexivity.
Qed.

(** C10: in a returned record, hyphen_in_subdomain = 1 implies
    hyphen_in_url = 1. *)
Theorem C10_subdomain_hyphen_is_url_hyphen (s : str) (df : DataFrame) :
  extract_features s = Ok df ->
  field df "hyphen_in_subdomain" = Some 1%Z ->
  field df "hyphen_in_url" = Some 1%Z.
Proof.
  intros E. apply extract_features_inv in E. destruct E as (p & Hp & ->).
  change (field (features_of s p) "hyphen_in_subdomain")
    with (Some (flag (existsb (fun part => startswith 45 part || endswith 45 part)
                        (split 46 (UrlParse.netloc p))))).
  change (field (features_of s p) "hyphen_in_url")
    with (Some (flag (contains 45 s))).
  rewrite !Some_flag, existsb_exists. intros (l & Hl & He).
  apply contains_In, authority_incl.
  rewrite <- (urlparse_inv _ _ Hp).
  apply (split_incl _ _ _ Hl).
  now apply edge_hyphen_In, edge_hyphen_spec.
Qed.

End Claims.


(** ** Closed instances *)

(** C4 at "http://192.168.1.1/login": the parse succeeds, the record has
    ip_in_url = 1, and the theorem yields that the host is a dotted quad. *)
Lemma C4_ip_in_url_dotted_quad_witness :
  @dotted_quad ascii_tables (lit "192.168.1.1").
Proof.
  pose proof (proj1 (@C4_ip_in_url_dotted_quad ascii_tables)
                (lit "http://192.168.1.1/login") _ _ eq_refl eq_refl) as [H _].
  exact (proj1 H eq_refl).
Defined.

(** C5 at "https://-evil.com": the record has hyphen_in_subdomain = 1, and
    the theorem yields a label of the host with a hyphen at an end. *)
Lemma C5_hyphen_in_subdomain_edge_label_witness :
  exists ls l, labels_of (lit "-evil.com") ls /\ In l ls /\ edge_hyphen l.
Proof.
  pose proof (proj1 (@C5_hyphen_in_subdomain_edge_label ascii_tables)
                (lit "https://-evil.com") _ _ eq_refl eq_refl) as [H _].
  exact (proj1 H eq_refl).
Defined.

(** C7 at the placeholder, the button pressed. *)
Lemma C7_placeholder_never_classified_witness :
  @App.on_button ascii_tables unit constant_model true (lit "https://")
    = [App.st_warning "URL을 입력해주세요."] /\
  existsb is_call
    (@App.on_button ascii_tables unit constant_model true (lit "https://")) = false.
Proof.
  apply (@C7_placeholder_never_classified ascii_tables unit constant_model true
           (lit "https://")).
  right. reflexivity.
Defined.

(** C8 from the empty cache, on "https://example.com". *)
Lemma C8_extract_features_deterministic_witness :
  fst (@extract_features_cached ascii_tables (lit "https://example.com")
         (snd (@extract_features_cached ascii_tables (lit "https://example.com") [])))
  = fst (@extract_features_cached ascii_tables (lit "https://example.com") []).
Proof.
  exact (proj1 (@C8_extract_features_deterministic ascii_tables
                  (lit "https://example.com") [] (@coherent_nil ascii_tables))).
Defined.

(** C9 at "https://example.com". *)
Lemma C9_column_order_witness :
  exists df,
    @extract_features ascii_tables (lit "https://example.com") = Ok df /\
    columns df =
      [ "url_length"; "hostname_length"; "ip_in_url"; "https_in_url";
        "special_chars"; "num_dots"; "at_sign"; "hyphen_in_url";
        "hyphen_in_subdomain"; "long_domain" ]%string.
Proof.
  eexists. split; [reflexivity|].
  exact (proj1 (@C9_column_order ascii_tables (lit "https://example.com") _ eq_refl)).
Defined.

(** C10 at "https://-evil.com": both hypotheses hold there. *)
Lemma C10_subdomain_hyphen_is_url_hyphen_witness :
  exists df,
    @extract_features ascii_tables (lit "https://-evil.com") = Ok df /\
    field df "hyphen_in_subdomain" = Some 1%Z /\
    field df "hyphen_in_url" = Some 1%Z.
Proof.
  eexists. split; [reflexivity|]. split; [reflexivity|].
  exact (@C10_subdomain_hyphen_is_url_hyphen ascii_tables
           (lit "https://-evil.com") _ eq_refl eq_refl).
Defined.

(** A full run on "https://example.com" with [constant_model]: the verdict
    is shown, then line 113 raises and the [except] branch reports it. *)
Example on_button_example_com :
  @App.on_button ascii_tables unit constant_model true (lit "https://example.com")
  = [ App.st_spinner "분석 중...";
      App.call_extract_features (lit "https://example.com");
      App.call_predict (@features_of ascii_tables (lit "https://example.com")
        {| UrlParse.scheme := lit "https"; UrlParse.netloc := lit "example.com";
           UrlParse.path := []; UrlParse.params := []; UrlParse.query := [];
           UrlParse.fragment := [] |});
      App.call_predict_proba (@features_of ascii_tables (lit "https://example.com")
        {| UrlParse.scheme := lit "https"; UrlParse.netloc := lit "example.com";
           UrlParse.path := []; UrlParse.params := []; UrlParse.query := [];
           UrlParse.fragment := [] |});
      App.st_success "✅ **안전!** 이 URL은 **안전한 사이트**로 탐지되었습니다.";
      App.st_write_probability "확률:" tt;
      App.st_markdown "---";
      App.st_subheader "모델 분석";
      App.st_markdown "모델이 URL을 어떻게 분석했는지 주요 특징을 보여드립니다.";
      App.st_write "**URL 길이 분포**";
      App.st_error_exception (TypeError "object of type 'int' has no len()");
      App.st_info "올바른 URL 형식을 입력했는지 확인해주세요." ].
Proof. vm_compute. reflexivity. Qed.

(** ** Further properties of the record *)

(** *** Counting through the stages of the parser *)

Lemma filter_length_skipn {A} (f : A -> bool) (n : nat) (l : list A) :
  (List.length (filter f (skipn n l)) <= List.length (filter f l))%nat.
Proof.
  rewrite <- (firstn_skipn n l) at 2. rewrite filter_app, length_app. lia.
Qed.

Lemma filter_length_firstn {A} (f : A -> bool) (n : nat) (l : list A) :
  (List.length (filter f (firstn n l)) <= List.length (filter f l))%nat.
Proof.
  rewrite <- (firstn_skipn n l) at 2. rewrite filter_app, length_app. lia.
Qed.

Lemma filter_length_filter {A} (f g : A -> bool) (l : list A) :
  (List.length (filter f (filter g l)) <= List.length (filter f l))%nat.
Proof.
  induction l as [|a l IH]; simpl; [lia|].
  destruct (g a); simpl; destruct (f a); simpl; lia.
Qed.

Lemma filter_length_lstrip (f : N -> bool) (chars s : str) :
  (List.length (filter f (lstrip chars s)) <= List.length (filter f s))%nat.
Proof.
  induction s as [|c s IH]; simpl; [lia|].
  destruct (contains c chars); simpl; [destruct (f c); simpl; lia | lia].
Qed.

Lemma filter_length_cleaned (f : N -> bool) (url : str) :
  (List.length (filter f (cleaned url)) <= List.length (filter f url))%nat.
Proof.
  unfold cleaned. simpl. unfold remove.
  repeat (etransitivity; [apply filter_length_filter|]).
  apply filter_length_lstrip.
Qed.

Lemma filter_length_after_scheme (f : N -> bool) (url : str) :
  (List.length (filter f (after_scheme url)) <= List.length (filter f url))%nat.
Proof.
  etransitivity; [|apply filter_length_cleaned].
  unfold after_scheme.
  destruct (_ && _); [|lia].
  destruct (forallb _ _); [apply filter_length_skipn | lia].
Qed.

(** The authority holds no more characters of a kind than the raw input. *)
Lemma filter_length_authority (f : N -> bool) (url : str) :
  (List.length (filter f (authority url)) <= List.length (filter f url))%nat.
Proof.
  etransitivity; [|apply filter_length_after_scheme].
  unfold authority.
  destruct (str_eqb _ _); [|simpl; lia].
  unfold UrlParse._splitnetloc. cbn [fst]. unfold slice, slice_from, slice_to.
  etransitivity; [apply filter_length_skipn | apply filter_length_firstn].
Qed.

Lemma filter_all {A} (l : list A) : filter (fun _ => true) l = l.
Proof. induction l as [|a l IH]; simpl; congruence. Qed.

(** A non-empty authority follows the two slashes it was cut after. *)
Lemma authority_length (url : str) :
  authority url <> [] ->
  (List.length (authority url) + 2 <= List.length url)%nat.
Proof.
  pose proof (filter_length_after_scheme (fun _ => true) url) as Hle.
  rewrite !filter_all in Hle.
  unfold authority.
  destruct (str_eqb _ _); [|congruence].
  unfold UrlParse._splitnetloc. cbn [fst]. unfold slice, slice_from, slice_to.
  intros Hne.
  rewrite length_skipn, length_firstn.
  destruct (skipn _ _) eqn:E; [congruence|].
  apply (f_equal (@List.length N)) in E.
  rewrite length_skipn, length_firstn in E. simpl in E. lia.
Qed.

(** *** Shared facts about a returned record *)

Lemma extract_features_netloc `{UnicodeData} (s : str) (df : DataFrame) :
  extract_features s = Ok df ->
  exists p, df = features_of s p /\ UrlParse.netloc p = authority s.
Proof.
  intros E. apply extract_features_inv in E. destruct E as (p & Hp & ->).
  exists p. split; [reflexivity | now apply urlparse_inv].
Qed.

(** With an empty authority the parser has nothing to reject. *)
Lemma extract_features_no_authority `{UnicodeData} (s : str) :
  authority s = [] ->
  exists p, extract_features s = Ok (features_of s p) /\ UrlParse.netloc p = [].
Proof.
  intros Ha. unfold extract_features, UrlParse.urlparse.
  pose proof (urlsplit_inv s [] true) as Hs. rewrite Ha in Hs.
  destruct (UrlParse.urlsplit s [] true) as [sr|e]; simpl.
  - exists (UrlParse.urlparse_of sr). split; [reflexivity|].
    unfold UrlParse.urlparse_of. now destruct (if _ : bool then _ else _).
  - destruct Hs as [_ [[]|[[]|Hs]]]. discriminate Hs.
Qed.

Lemma digit_group_no_dot `{UnicodeData} (g : str) : digit_group g -> ~ In 46%N g.
Proof.
  intros [_ Hg] Hd. rewrite Forall_forall in Hg. now apply Hg in Hd.
Qed.

Lemma digit_group_no_edge_hyphen `{UnicodeData} (g : str) :
  digit_group g -> ~ edge_hyphen g.
Proof.
  intros [_ Hg] He. apply edge_hyphen_In in He.
  rewrite Forall_forall in Hg. now apply Hg in He.
Qed.

(** The labels of a dotted quad are its four digit groups. *)
Lemma dotted_quad_split `{UnicodeData} (h : str) :
  dotted_quad h ->
  exists a b c d,
    digit_group a /\ digit_group b /\ digit_group c /\ digit_group d /\
    h = a ++ 46%N :: b ++ 46%N :: c ++ 46%N :: d /\
    split 46 h = [a; b; c; d].
Proof.
  intros (a & b & c & d & Ha & Hb & Hc & Hd & ->).
  exists a, b, c, d. repeat (split; [assumption|]). split; [reflexivity|].
  apply (split_join 46 [a; b; c; d]); [discriminate|].
  repeat constructor; now apply digit_group_no_dot.
Qed.

Section More.
Context `{U : UnicodeData}.

(** X1: long_domain is 1 exactly when the first dot-separated label of
    the parsed host has more than 30 characters, 0 otherwise. *)
Theorem X1_long_domain_first_label (s : str) (p : UrlParse.ParseResult)
    (df : DataFrame) :
  UrlParse.urlparse s = Ok p -> extract_features s = Ok df ->
  (field df "long_domain" = Some 1%Z <->
   exists l ls, labels_of (UrlParse.netloc p) (l :: ls) /\ (30 < List.length l)%nat) /\
  (field df "long_domain" = Some 1%Z \/ field df "long_domain" = Some 0%Z).
Proof.
  intros Hp E. apply extract_features_inv in E. destruct E as (p' & Hp' & ->).
  rewrite Hp in Hp'. injection Hp' as <-.
  change (field (features_of s p) "long_domain")
    with (Some (flag (30 <? len (first (split 46 (UrlParse.netloc p))))%Z)).
  split.
  - rewrite Some_flag, Z.ltb_lt. unfold len. split.
    + intros Hl. pose proof (split_nonempty 46 (UrlParse.netloc p)) as Hne.
      destruct (split 46 (UrlParse.netloc p)) as [|l ls] eqn:Es; [congruence|].
      exists l, ls. split; [apply labels_of_split; now rewrite Es|].
      simpl in Hl. lia.
    + intros (l & ls & Hls & Hl). apply labels_of_split in Hls.
      rewrite <- Hls. simpl. lia.
  - match goal with |- context [flag ?b] => destruct (flag_bit b) as [->| ->] end; auto.
Qed.

(** X2: the host is never longer than the URL, and a non-empty host
    leaves room for the two slashes before it. *)
Theorem X2_hostname_length_bound (s : str) (df : DataFrame) :
  extract_features s = Ok df ->
  exists h n,
    field df "hostname_length" = Some h /\ field df "url_length" = Some n /\
    (0 <= h <= n)%Z /\ (h = 0 \/ h + 2 <= n)%Z.
Proof.
  intros E. apply extract_features_netloc in E. destruct E as (p & -> & Hn).
  exists (len (UrlParse.netloc p)), (len s).
  split; [reflexivity|]. split; [reflexivity|].
  rewrite Hn. unfold len.
  destruct (authority s) as [|c a] eqn:Ea.
  - simpl. lia.
  - assert (Hne : authority s <> []) by (rewrite Ea; discriminate).
    apply authority_length in Hne. rewrite Ea in Hne. lia.
Qed.

(** X3: when ip_in_url is 1 the host has 7 to 15 characters and the URL
    at least three dots. *)
Theorem X3_ip_host_size (s : str) (df : DataFrame) :
  extract_features s = Ok df ->
  field df "ip_in_url" = Some 1%Z ->
  exists h d,
    field df "hostname_length" = Some h /\ field df "num_dots" = Some d /\
    (7 <= h <= 15)%Z /\ (3 <= d)%Z.
Proof.
  intros E. apply extract_features_netloc in E. destruct E as (p & -> & Hn).
  change (field (features_of s p) "ip_in_url")
    with (Some (flag (Re.re_match ip_pattern (UrlParse.netloc p)))).
  rewrite Some_flag, Hn. intros Hm.
  apply ip_pattern_whole in Hm; [|apply authority_no_newline].
  exists (len (UrlParse.netloc p)), (count 46 s).
  split; [reflexivity|]. split; [reflexivity|].
  rewrite Hn. unfold count, len.
  pose proof (filter_length_authority (N.eqb 46) s) as Hle.
  destruct Hm as (a & b & c & d & [Ha _] & [Hb _] & [Hc _] & [Hd _] & Eh).
  rewrite Eh in *.
  repeat (rewrite filter_app in Hle; simpl in Hle).
  repeat (rewrite length_app in Hle; simpl in Hle).
  repeat (rewrite length_app; simpl).
  lia.
Qed.

(** X4: when ip_in_url is 1, hyphen_in_subdomain and long_domain are 0. *)
Theorem X4_ip_host_flags (s : str) (df : DataFrame) :
  extract_features s = Ok df ->
  field df "ip_in_url" = Some 1%Z ->
  field df "hyphen_in_subdomain" = Some 0%Z /\ field df "long_domain" = Some 0%Z.
Proof.
  intros E. apply extract_features_netloc in E. destruct E as (p & -> & Hn).
  change (field (features_of s p) "ip_in_url")
    with (Some (flag (Re.re_match ip_pattern (UrlParse.netloc p)))).
  change (field (features_of s p) "hyphen_in_subdomain")
    with (Some (flag (existsb (fun part => startswith 45 part || endswith 45 part)
                        (split 46 (UrlParse.netloc p))))).
  change (field (features_of s p) "long_domain")
    with (Some (flag (30 <? len (first (split 46 (UrlParse.netloc p))))%Z)).
  rewrite Some_flag, Hn. intros Hm.
  apply ip_pattern_whole in Hm; [|apply authority_no_newline].
  apply dotted_quad_split in Hm.
  destruct Hm as (a & b & c & d & Ha & Hb & Hc & Hd & _ & ->).
  split.
  - replace (existsb _ _) with false; [reflexivity|].
    symmetry. simpl.
    repeat match goal with
    | Hg : digit_group ?g |- context [startswith 45 ?g || endswith 45 ?g] =>
        let Hx := fresh in
        destruct (startswith 45 g || endswith 45 g) eqn:Hx;
        [apply edge_hyphen_spec in Hx; now apply digit_group_no_edge_hyphen in Hx|]
    end.
    reflexivity.
  - destruct Ha as [Ha _]. simpl. unfold len.
    destruct (30 <? Z.of_nat (List.length a))%Z eqn:El; [|reflexivity].
    apply Z.ltb_lt in El. lia.
Qed.

End More.

(** *** The scheme and the brackets *)

Lemma urlsplit_scheme `{UnicodeData} (url : str) (p : UrlParse.ParseResult) :
  UrlParse.urlsplit url [] true = Ok p -> UrlParse.scheme p = scheme_of url.
Proof.
  unfold UrlParse.urlsplit, scheme_of. fold (cleaned url).
  set (u := cleaned url).
  change (fold_left _ _ (strip _ [])) with (@nil N).
  destruct ((0 <? find 58 0 u)%Z && isascii_alpha (hd 0%N u));
    [destruct (forallb _ (slice_to _ u))|];
    (destruct (if str_eqb _ _ then _ else _) as [[nl rest]|e]; simpl;
     [|discriminate]);
    repeat lazymatch goal with
      | |- context [match ?x with pair _ _ => _ end] => destruct x as [? ?]
      end;
    (destruct (UrlParse._checknetloc nl) as [[]|e]; simpl; [|discriminate]);
    now intros [= <-].
Qed.

Lemma urlparse_scheme `{UnicodeData} (url : str) (p : UrlParse.ParseResult) :
  UrlParse.urlparse url = Ok p -> UrlParse.scheme p = scheme_of url.
Proof.
  unfold UrlParse.urlparse.
  destruct (UrlParse.urlsplit url [] true) as [sr|e] eqn:Es; simpl; [|discriminate].
  intros [= <-]. apply urlsplit_scheme in Es.
  unfold UrlParse.urlparse_of. now destruct (if _ : bool then _ else _).
Qed.

(** An authority with one kind of square bracket only is refused. *)
Lemma urlsplit_unmatched `{UnicodeData} (url sch : str) (af : bool) :
  (contains 91 (authority url) && negb (contains 93 (authority url)))
  || (contains 93 (authority url) && negb (contains 91 (authority url))) = true ->
  UrlParse.urlsplit url sch af = Raise (ValueError "Invalid IPv6 URL").
Proof.
  unfold UrlParse.urlsplit, authority, after_scheme. fold (cleaned url).
  set (u := cleaned url).
  destruct ((0 <? find 58 0 u)%Z && isascii_alpha (hd 0%N u));
    [destruct (forallb _ (slice_to _ u))|];
    match goal with
    | |- context [str_eqb (slice_to 2 ?v) _] =>
        destruct (str_eqb (slice_to 2 v) (lit "//")); [|discriminate];
        destruct (UrlParse._splitnetloc v 2) as [nl rest]
    end;
    simpl fst; intros ->; reflexivity.
Qed.

Lemma index_of_split (c : N) (l : str) (i : nat) :
  index_of c l = Some i ->
  l = firstn i l ++ c :: skipn (S i) l.
Proof.
  revert i. induction l as [|x l IH]; intros i; simpl; [discriminate|].
  destruct (N.eqb x c) eqn:E.
  - apply N.eqb_eq in E. intros [= <-]. now subst.
  - destruct (index_of c l) as [j|]; simpl; [|discriminate].
    intros [= <-]. simpl. f_equal. now apply IH.
Qed.

Lemma index_of_app (c : N) (pre rest : str) :
  ~ In c pre -> index_of c (pre ++ c :: rest) = Some (List.length pre).
Proof.
  induction pre as [|x pre IH]; intros Hn; simpl.
  - now rewrite N.eqb_refl.
  - destruct (N.eqb x c) eqn:E.
    + apply N.eqb_eq in E. exfalso. apply Hn. now left.
    + rewrite IH; [reflexivity|]. intros Hc. apply Hn. now right.
Qed.

Lemma find_from_0 (c : N) (u : str) :
  find c 0 u = match index_of c u with
               | Some i => Z.of_nat i
               | None => (-1)%Z
               end.
Proof. unfold find, slice_from. simpl. now destruct (index_of c u). Qed.

(** A character that lowers to a small letter is that letter or its
    capital. *)
Lemma lower_char (c d : N) :
  (if is_upper c then (c + 32)%N else c) = d -> is_lower d = true ->
  c = d \/ c = (d - 32)%N.
Proof.
  destruct (is_upper c); intros <- _; [right | left]; lia.
Qed.

(** The spellings of the scheme https. *)
Lemma lower_https (pre : str) :
  lower pre = lit "https" ->
  List.length pre = 5%nat /\ ~ In 58%N pre /\
  isascii_alpha (hd 0%N pre) = true /\
  forallb (fun c => contains c UrlParse.scheme_chars) pre = true.
Proof.
  unfold lower. intros E.
  destruct pre as [|c1 [|c2 [|c3 [|c4 [|c5 [|c6 pre]]]]]]; try discriminate E.
  injection E as E1 E2 E3 E4 E5.
  apply lower_char in E1, E2, E3, E4, E5; try reflexivity.
  destruct E1 as [-> | ->], E2 as [-> | ->], E3 as [-> | ->],
    E4 as [-> | ->], E5 as [-> | ->];
    (split; [reflexivity|]; split; [|split; reflexivity]);
    intros Hin; simpl in Hin; intuition discriminate.
Qed.

Section Scheme.
Context `{U : UnicodeData}.

(** X5: https_in_url is 1 exactly when the URL, with leading control
    characters and spaces and every tab, CR and LF taken out, starts with
    a spelling of https in either case followed by a colon; no slash is
    required. *)
Theorem X5_https_in_url_scheme (s : str) (df : DataFrame) :
  extract_features s = Ok df ->
  (field df "https_in_url" = Some 1%Z <->
   exists pre rest, cleaned s = pre ++ 58%N :: rest /\ lower pre = lit "https") /\
  (field df "https_in_url" = Some 1%Z \/ field df "https_in_url" = Some 0%Z).
Proof.
  intros E. apply extract_features_inv in E. destruct E as (p & Hp & ->).
  change (field (features_of s p) "https_in_url")
    with (Some (flag (str_eqb (UrlParse.scheme p) (lit "https")))).
  split; [|destruct (flag_bit (str_eqb (UrlParse.scheme p) (lit "https"))) as [->| ->]; auto].
  rewrite Some_flag, str_eqb_eq, (urlparse_scheme _ _ Hp).
  unfold scheme_of. rewrite find_from_0. unfold slice_to.
  set (u := cleaned s). split.
  - destruct (index_of 58 u) as [i|] eqn:Ei; [|discriminate].
    rewrite Nat2Z.id.
    destruct (_ && _); [|discriminate].
    destruct (forallb _ _); [|discriminate].
    intros El. exists (firstn i u), (skipn (S i) u).
    split; [now apply index_of_split | assumption].
  - intros (pre & rest & Eu & El).
    destruct (lower_https pre El) as (Hlen & Hn & Ha & Hf).
    rewrite Eu, (index_of_app _ _ _ Hn), Nat2Z.id, Hlen.
    replace (firstn 5 (pre ++ 58%N :: rest)) with pre
      by (rewrite <- Hlen, firstn_app, firstn_all, Nat.sub_diag; simpl;
          now rewrite app_nil_r).
    destruct pre as [|c pre]; [discriminate Hlen|].
    simpl hd. simpl in Ha. rewrite Ha, Hf. exact El.
Qed.

End Scheme.

Lemma no_slash_no_authority (s : str) : ~ In 47%N s -> authority s = [].
Proof.
  intros Hn. unfold authority.
  destruct (str_eqb _ _) eqn:E; [|reflexivity].
  exfalso. apply Hn. apply str_eqb_eq in E.
  apply cleaned_incl, after_scheme_incl, (slice_to_incl 2).
  rewrite E. now left.
Qed.

Section Counts.
Context `{U : UnicodeData}.

Lemma special_chars_value (s : str) :
  len (Re.findall special_pattern s) = len (filter code_special s).
Proof.
  unfold Re.findall, len. rewrite length_map.
  do 2 f_equal. apply filter_ext. apply special_pattern_matches.
Qed.

(** X6: at_sign is at most special_chars, which is at most url_length:
    an @ is always counted as a special character. *)
Theorem X6_at_sign_special_chars_url_length (s : str) (df : DataFrame) :
  extract_features s = Ok df ->
  exists a k n,
    field df "at_sign" = Some a /\ field df "special_chars" = Some k /\
    field df "url_length" = Some n /\ (0 <= a <= k)%Z /\ (k <= n)%Z.
Proof.
  intros E. apply extract_features_inv in E. destruct E as (p & _ & ->).
  exists (flag (contains 64 s)), (len (Re.findall special_pattern s)), (len s).
  repeat (split; [reflexivity|]).
  rewrite special_chars_value. unfold len.
  pose proof (filter_length_le code_special s) as Hle.
  split; [|lia].
  destruct (contains 64 s) eqn:Ec; simpl; [|lia].
  apply contains_In in Ec.
  assert (Hin : In 64%N (filter code_special s))
    by (apply filter_In; split; [assumption | reflexivity]).
  destruct (filter code_special s); [destruct Hin | simpl; lia].
Qed.

(** X7: on an input without any slash the parser finds no host:
    [extract_features] returns, and hostname_length, ip_in_url,
    hyphen_in_subdomain and long_domain are 0 (a bare "192.168.1.1" is
    not an IP host). *)
Theorem X7_no_slash_no_host (s : str) :
  ~ In 47%N s ->
  exists df, extract_features s = Ok df /\
    field df "hostname_length" = Some 0%Z /\
    field df "ip_in_url" = Some 0%Z /\
    field df "hyphen_in_subdomain" = Some 0%Z /\
    field df "long_domain" = Some 0%Z.
Proof.
  intros Hn. apply no_slash_no_authority in Hn.
  destruct (extract_features_no_authority s Hn) as (p & E & Hp).
  exists (features_of s p). split; [assumption|].
  change (field (features_of s p) "hostname_length")
    with (Some (len (UrlParse.netloc p))).
  change (field (features_of s p) "ip_in_url")
    with (Some (flag (Re.re_match ip_pattern (UrlParse.netloc p)))).
  change (field (features_of s p) "hyphen_in_subdomain")
    with (Some (flag (existsb (fun part => startswith 45 part || endswith 45 part)
                        (split 46 (UrlParse.netloc p))))).
  change (field (features_of s p) "long_domain")
    with (Some (flag (30 <? len (first (split 46 (UrlParse.netloc p))))%Z)).
  rewrite Hp. repeat split.
Qed.

(** X8: when the authority holds an opening square bracket and no closing
    one, or a closing one and no opening one, [extract_features] raises
    [ValueError] ("Invalid IPv6 URL"). *)
Theorem X8_unmatched_bracket_raises (s : str) :
  (In 91%N (authority s) /\ ~ In 93%N (authority s)) \/
  (In 93%N (authority s) /\ ~ In 91%N (authority s)) ->
  extract_features s = Raise (ValueError "Invalid IPv6 URL").
Proof.
  intros Hb. unfold extract_features, UrlParse.urlparse.
  rewrite urlsplit_unmatched; [reflexivity|].
  apply orb_true_iff.
  destruct Hb as [[Hi Hn]|[Hi Hn]]; [left | right];
    apply andb_true_iff; (split; [now apply contains_In|]);
    apply negb_true_iff; destruct (contains _ _) eqn:Ec; try reflexivity;
    apply contains_In in Ec; contradiction.
Qed.

End Counts.

(** ** The button handler *)

(** The test of line 77. *)
Lemma guard_spec (s : str) :
  (match s with [] => true | _ => false end) || str_eqb s (lit "https://") = true
  <-> s = lit "" \/ s = lit "https://".
Proof.
  rewrite orb_true_iff, str_eqb_eq. change (lit "") with (@nil N).
  destruct s as [|c s].
  - split; intros _; now left.
  - split; (intros [H|H]; [discriminate H | now right]).
Qed.

Lemma guard_false (s : str) :
  s <> lit "" -> s <> lit "https://" ->
  (match s with [] => true | _ => false end) || str_eqb s (lit "https://") = false.
Proof.
  intros H1 H2. destruct (_ || _) eqn:E; [|reflexivity].
  apply guard_spec in E. tauto.
Qed.

(** Every path through the body of the [try], one goal per path. *)
Ltac analyse_cases model s :=
  unfold App.analyse;
  destruct (extract_features s) as [?df|?e] eqn:?E; simpl;
  [ match goal with
    | |- context [App.predict model ?d] =>
        destruct (App.predict model d) as [?l|?e] eqn:?P; simpl;
        [ destruct (App.predict_proba model d) as [?pp|?e] eqn:?PP; simpl;
          [ match goal with
            | |- context [App.item 0 ?l] =>
                destruct l as [|?label ?l]; simpl;
                [ | match goal with
                    | |- context [(?a =? 1)%Z] => destruct (a =? 1)%Z eqn:?L
                    end;
                    match goal with
                    | |- context [App.item 0 ?pp] =>
                        destruct pp as [|[|?p0 [|?p1 ?row]] ?pp]; simpl
                    end;
                    destruct (App.feature_importances_ model) as [?imp|] eqn:?I;
                    simpl;
                    try match goal with
                        | |- context [if ?b then App.lift (Ok tt) else _] =>
                            destruct b eqn:?S; simpl
                        end ]
            end
          | ]
        | ]
    end
  | ].

Section Handler.
Context `{U : UnicodeData} {F : Type}.
Variable model : App.Model F.

(** The body of the [try] never completes: it stops on an exception, and
    the chart of line 134 is not among its effects. *)
Lemma analyse_raises (s : str) :
  exists t e, App.analyse model s = (t, Raise e) /\ ~ In App.st_altair_chart t.
Proof.
  analyse_cases model s;
    (do 2 eexists; split; [reflexivity | simpl; intuition discriminate]).
Qed.

(** The classifier is handed the record [extract_features] returned, and
    [predict_proba] runs only after [predict] returned. *)
Lemma analyse_calls (s : str) (df : DataFrame) :
  (In (App.call_predict df) (fst (App.analyse model s)) ->
   extract_features s = Ok df) /\
  (In (App.call_predict_proba df) (fst (App.analyse model s)) ->
   extract_features s = Ok df /\ exists l, App.predict model df = Ok l).
Proof.
  analyse_cases model s; simpl; split; intros Hin;
    repeat (destruct Hin as [Hin|Hin]; [try discriminate Hin|]);
    try contradiction;
    injection Hin as <-; eauto.
Qed.

(** A pressed button on an input the guard lets through: the spinner, the
    effects of the body, and the two messages of the [except] branch. *)
Lemma on_button_analysed (s : str) :
  s <> lit "" -> s <> lit "https://" ->
  exists t e,
    App.analyse model s = (t, Raise e) /\
    ~ In App.st_altair_chart t /\
    App.on_button model true s
      = App.st_spinner "분석 중..." :: t ++ except_branch e.
Proof.
  intros H1 H2. destruct (analyse_raises s) as (t & e & Ea & Hn).
  exists t, e. split; [assumption|]. split; [assumption|].
  unfold App.on_button. rewrite (guard_false s H1 H2), Ea. reflexivity.
Qed.

Lemma extract_features_placeholder (s : str) :
  s = lit "" \/ s = lit "https://" -> exists df, extract_features s = Ok df.
Proof. intros [-> | ->]; eexists; vm_compute; reflexivity. Qed.

(** X9: the guard compares the input as typed: the warning alone is the
    result exactly for the empty string and for "https://"; every other
    input, with surrounding spaces or not, goes unchanged to
    [extract_features] right after the spinner. *)
Theorem X9_guard_is_exact (s : str) :
  (App.on_button model true s = [App.st_warning "URL을 입력해주세요."]
   <-> s = lit "" \/ s = lit "https://") /\
  (s <> lit "" -> s <> lit "https://" ->
   exists rest,
     App.on_button model true s
       = App.st_spinner "분석 중..." :: App.call_extract_features s :: rest).
Proof.
  assert (Hrun : s <> lit "" -> s <> lit "https://" ->
    exists rest, App.on_button model true s
      = App.st_spinner "분석 중..." :: App.call_extract_features s :: rest).
  { intros H1 H2. unfold App.on_button. rewrite (guard_false s H1 H2).
    unfold App.analyse, App.io_bind at 1. simpl App.emit.
    destruct (App.io_bind _ _) as [t [[]|e]]; simpl; eexists; reflexivity. }
  split; [|exact Hrun]. split.
  - intros Hw.
    destruct (list_eq_dec N.eq_dec s (lit "")) as [|H1]; [now left|].
    destruct (list_eq_dec N.eq_dec s (lit "https://")) as [|H2]; [now right|].
    destruct (Hrun H1 H2) as (rest & Er). rewrite Er in Hw. discriminate Hw.
  - intros [-> | ->]; reflexivity.
Qed.

(** X10: when [extract_features] raises, the classifier is not called:
    the run is the spinner, the call of the extractor, the error message
    carrying the exception, and the hint. *)
Theorem X10_extraction_error_reported (s : str) (e : exn) :
  extract_features s = Raise e ->
  App.on_button model true s
    = [ App.st_spinner "분석 중..."; App.call_extract_features s;
        App.st_error_exception e;
        App.st_info "올바른 URL 형식을 입력했는지 확인해주세요." ].
Proof.
  intros E.
  assert (H1 : s <> lit "").
  { intros ->. destruct (extract_features_placeholder (lit "")) as (df & Ed);
      [now left | congruence]. }
  assert (H2 : s <> lit "https://").
  { intros ->. destruct (extract_features_placeholder (lit "https://")) as (df & Ed);
      [now right | congruence]. }
  unfold App.on_button. rewrite (guard_false s H1 H2).
  unfold App.analyse. rewrite E. reflexivity.
Qed.

(** X11: when [predict] raises, [predict_proba] is not called and no
    verdict is shown; when [predict_proba] raises, no verdict is shown
    either.  Both exceptions end in the error message and the hint. *)
Theorem X11_classifier_error_reported (s : str) (df : DataFrame) (e : exn) :
  s <> lit "" -> s <> lit "https://" ->
  extract_features s = Ok df ->
  (App.predict model df = Raise e ->
   App.on_button model true s
     = [ App.st_spinner "분석 중..."; App.call_extract_features s;
         App.call_predict df ] ++ except_branch e) /\
  (forall l, App.predict model df = Ok l ->
   App.predict_proba model df = Raise e ->
   App.on_button model true s
     = [ App.st_spinner "분석 중..."; App.call_extract_features s;
         App.call_predict df; App.call_predict_proba df ] ++ except_branch e).
Proof.
  intros H1 H2 E. unfold App.on_button. rewrite (guard_false s H1 H2).
  unfold App.analyse. rewrite E. simpl. split.
  - intros ->. reflexivity.
  - intros l -> ->. reflexivity.
Qed.

(** X12: the verdict is "phishing", with the second probability of the
    first row, exactly when the first predicted label is 1; for every
    other label it is "safe", with the first probability. *)
Theorem X12_verdict_by_first_label (s : str) (df : DataFrame)
    (label : Z) (labels : list Z) (p0 p1 : F) (ps : list F) (rows : list (list F)) :
  s <> lit "" -> s <> lit "https://" ->
  extract_features s = Ok df ->
  App.predict model df = Ok (label :: labels) ->
  App.predict_proba model df = Ok ((p0 :: p1 :: ps) :: rows) ->
  exists rest,
    App.on_button model true s
      = [ App.st_spinner "분석 중..."; App.call_extract_features s;
          App.call_predict df; App.call_predict_proba df ]
        ++ (if (label =? 1)%Z
            then [ App.st_error "⚠️ **위험!** 이 URL은 **피싱 웹사이트**일 가능성이 높습니다.";
                   App.st_write_probability "확률:" p1 ]
            else [ App.st_success "✅ **안전!** 이 URL은 **안전한 사이트**로 탐지되었습니다.";
                   App.st_write_probability "확률:" p0 ])
        ++ App.st_markdown "---" :: rest.
Proof.
  intros H1 H2 E P PP. unfold App.on_button. rewrite (guard_false s H1 H2).
  unfold App.analyse. rewrite E. simpl. rewrite P. simpl. rewrite PP. simpl.
  destruct (label =? 1)%Z; simpl;
    (destruct (App.feature_importances_ model) as [imp|]; simpl;
     [destruct (Nat.eqb _ _); simpl|]); eexists; reflexivity.
Qed.

(** X13: no run renders the chart of line 134, and every run that gets
    past the guard ends with the error message and the hint of the
    [except] branch: line 113 takes [len] of an integer label. *)
Theorem X13_chart_never_rendered (button : bool) (s : str) :
  ~ In App.st_altair_chart (App.on_button model button s) /\
  (button = true -> s <> lit "" -> s <> lit "https://" ->
   exists pre e, App.on_button model button s = pre ++ except_branch e).
Proof.
  split.
  - destruct button; [|intros []].
    destruct (list_eq_dec N.eq_dec s (lit "")) as [->|H1];
      [simpl; intuition discriminate|].
    destruct (list_eq_dec N.eq_dec s (lit "https://")) as [->|H2];
      [simpl; intuition discriminate|].
    destruct (on_button_analysed s H1 H2) as (t & e & _ & Hn & ->).
    intros [Hin|Hin]; [discriminate Hin|].
    apply in_app_or in Hin. destruct Hin as [Hin|Hin]; [now apply Hn|].
    simpl in Hin. intuition discriminate.
  - intros -> H1 H2.
    destruct (on_button_analysed s H1 H2) as (t & e & _ & _ & ->).
    exists (App.st_spinner "분석 중..." :: t), e. reflexivity.
Qed.

(** X14: whatever record [predict] or [predict_proba] is called with is
    the record [extract_features] returned for the input, and
    [predict_proba] is called only after [predict] returned. *)
Theorem X14_classifier_sees_extracted_record (button : bool) (s : str)
    (df : DataFrame) :
  (In (App.call_predict df) (App.on_button model button s) ->
   extract_features s = Ok df) /\
  (In (App.call_predict_proba df) (App.on_button model button s) ->
   extract_features s = Ok df /\ exists l, App.predict model df = Ok l).
Proof.
  destruct button; [|split; intros []].
  destruct (list_eq_dec N.eq_dec s (lit "")) as [->|H1];
    [split; simpl; intuition discriminate|].
  destruct (list_eq_dec N.eq_dec s (lit "https://")) as [->|H2];
    [split; simpl; intuition discriminate|].
  destruct (on_button_analysed s H1 H2) as (t & e & Ea & _ & ->).
  pose proof (analyse_calls s df) as [Hp Hpp]. rewrite Ea in Hp, Hpp. simpl in Hp, Hpp.
  split; intros [Hin|Hin]; try discriminate Hin;
    (apply in_app_or in Hin; destruct Hin as [Hin|Hin];
     [auto | simpl in Hin; intuition discriminate]).
Qed.

End Handler.

(** ** Closed instances of the further properties *)

Ltac by_computation := let H := fresh in intros H; vm_compute in H; discriminate H.

(** X1 at a host whose first label has 31 characters. *)
Lemma X1_long_domain_first_label_witness :
  exists l ls,
    labels_of (lit "aaaaaaaaaaaaaaaaaaaaaaaaaaaaaaa.com") (l :: ls) /\
    (30 < List.length l)%nat.
Proof.
  pose proof (@X1_long_domain_first_label ascii_tables
                (lit "https://aaaaaaaaaaaaaaaaaaaaaaaaaaaaaaa.com") _ _
                eq_refl eq_refl) as [H _].
  exact (proj1 H eq_refl).
Defined.

(** X2 at "https://example.com": 11 + 2 <= 19. *)
Lemma X2_hostname_length_bound_witness :
  exists df,
    @extract_features ascii_tables (lit "https://example.com") = Ok df /\
    exists h n,
      field df "hostname_length" = Some h /\ field df "url_length" = Some n /\
      (0 <= h <= n)%Z /\ (h = 0 \/ h + 2 <= n)%Z.
Proof.
  eexists. split; [reflexivity|].
  exact (@X2_hostname_length_bound ascii_tables (lit "https://example.com") _ eq_refl).
Defined.

(** X3 at "http://192.168.1.1/login". *)
Lemma X3_ip_host_size_witness :
  exists df,
    @extract_features ascii_tables (lit "http://192.168.1.1/login") = Ok df /\
    exists h d,
      field df "hostname_length" = Some h /\ field df "num_dots" = Some d /\
      (7 <= h <= 15)%Z /\ (3 <= d)%Z.
Proof.
  eexists. split; [reflexivity|].
  exact (@X3_ip_host_size ascii_tables (lit "http://192.168.1.1/login") _
           eq_refl eq_refl).
Defined.

(** X4 at "http://192.168.1.1/login". *)
Lemma X4_ip_host_flags_witness :
  exists df,
    @extract_features ascii_tables (lit "http://192.168.1.1/login") = Ok df /\
    field df "hyphen_in_subdomain" = Some 0%Z /\ field df "long_domain" = Some 0%Z.
Proof.
  eexists. split; [reflexivity|].
  exact (@X4_ip_host_flags ascii_tables (lit "http://192.168.1.1/login") _
           eq_refl eq_refl).
Defined.

(** X5 at a scheme in mixed case after leading blanks. *)
Lemma X5_https_in_url_scheme_witness :
  exists pre rest,
    cleaned (lit "  hTTpS://example.com") = pre ++ 58%N :: rest /\
    lower pre = lit "https".
Proof.
  exact (proj1 (proj1 (@X5_https_in_url_scheme ascii_tables
                         (lit "  hTTpS://example.com") _ eq_refl)) eq_refl).
Defined.

(** X6 at "http://user@example.com". *)
Lemma X6_at_sign_special_chars_url_length_witness :
  exists df,
    @extract_features ascii_tables (lit "http://user@example.com") = Ok df /\
    exists a k n,
      field df "at_sign" = Some a /\ field df "special_chars" = Some k /\
      field df "url_length" = Some n /\ (0 <= a <= k)%Z /\ (k <= n)%Z.
Proof.
  eexists. split; [reflexivity|].
  exact (@X6_at_sign_special_chars_url_length ascii_tables
           (lit "http://user@example.com") _ eq_refl).
Defined.

(** X7 at the bare address "192.168.1.1". *)
Lemma X7_no_slash_no_host_witness :
  exists df, @extract_features ascii_tables (lit "192.168.1.1") = Ok df /\
    field df "hostname_length" = Some 0%Z /\
    field df "ip_in_url" = Some 0%Z /\
    field df "hyphen_in_subdomain" = Some 0%Z /\
    field df "long_domain" = Some 0%Z.
Proof.
  apply (@X7_no_slash_no_host ascii_tables (lit "192.168.1.1")).
  intros H. apply contains_In in H. vm_compute in H. discriminate H.
Defined.

(** X8 at "http://a]". *)
Lemma X8_unmatched_bracket_raises_witness :
  @extract_features ascii_tables (lit "http://a]")
  = Raise (ValueError "Invalid IPv6 URL").
Proof.
  apply (@X8_unmatched_bracket_raises ascii_tables (lit "http://a]")).
  right. split.
  - apply contains_In. reflexivity.
  - intros H. apply contains_In in H. vm_compute in H. discriminate H.
Defined.

(** X10 at "http://[". *)
Lemma X10_extraction_error_reported_witness :
  @App.on_button ascii_tables unit constant_model true (lit "http://[")
  = [ App.st_spinner "분석 중..."; App.call_extract_features (lit "http://[");
      App.st_error_exception (ValueError "Invalid IPv6 URL");
      App.st_info "올바른 URL 형식을 입력했는지 확인해주세요." ].
Proof.
  exact (@X10_extraction_error_reported ascii_tables unit constant_model
           (lit "http://[") (ValueError "Invalid IPv6 URL") eq_refl).
Defined.

(** X11 at "https://example.com" with a classifier whose [predict] fails. *)
Lemma X11_classifier_error_reported_witness :
  exists df,
    @extract_features ascii_tables (lit "https://example.com") = Ok df /\
    @App.on_button ascii_tables unit raising_model true (lit "https://example.com")
    = [ App.st_spinner "분석 중...";
        App.call_extract_features (lit "https://example.com");
        App.call_predict df ] ++ except_branch (OtherError "not fitted").
Proof.
  eexists. split; [reflexivity|].
  refine (proj1 (@X11_classifier_error_reported ascii_tables unit raising_model
                   (lit "https://example.com") _ (OtherError "not fitted")
                   _ _ eq_refl) eq_refl); by_computation.
Defined.

(** X12 at "https://example.com" with the classifier that answers "safe". *)
Lemma X12_verdict_by_first_label_witness :
  exists df rest,
    @extract_features ascii_tables (lit "https://example.com") = Ok df /\
    @App.on_button ascii_tables unit constant_model true (lit "https://example.com")
    = [ App.st_spinner "분석 중...";
        App.call_extract_features (lit "https://example.com");
        App.call_predict df; App.call_predict_proba df ]
      ++ [ App.st_success "✅ **안전!** 이 URL은 **안전한 사이트**로 탐지되었습니다.";
           App.st_write_probability "확률:" tt ]
      ++ App.st_markdown "---" :: rest.
Proof.
  assert (H1 : lit "https://example.com" <> lit "") by by_computation.
  assert (H2 : lit "https://example.com" <> lit "https://") by by_computation.
  destruct (@X12_verdict_by_first_label ascii_tables unit constant_model
              (lit "https://example.com") _ 0%Z [] tt tt [] []
              H1 H2 eq_refl eq_refl eq_refl) as (rest & E).
  eexists. exists rest. split; [reflexivity | exact E].
Defined.
